(** * Branch resolution and credential-refreshing retry: a shallow embedding

    The development embeds four TypeScript units of the action:

    - [src/github/operations/branch.ts]        ([setupBranch]),
    - [src/github/operations/token-refresh.ts] ([refreshTokenAndReconfigureGit],
      [shouldRefreshToken], [withTokenRefresh]),
    - the commit-and-push entry point          ([run]),
    - [src/mcp/structured-outputs-server.ts]   (the two tool handlers).

    Asynchronous code is sequential here ([await] at every call), so a
    computation is a function from the environment and the current state to
    an outcome and a new state.  The environment answers every call to an
    external collaborator (clock, git, hosting API, credential issuance) as a
    function of the history of the run; the state holds that history and the
    mutable [{ value: number }] objects allocated by the run. *)

From Stdlib Require Import ZArith List String Ascii Bool Lia DecimalString.
Import ListNotations.
Local Open Scope string_scope.
Local Open Scope Z_scope.

Set Implicit Arguments.

(** ** JavaScript strings

    Strings are sequences of ASCII characters; the functions below are the
    [String.prototype] methods the sources call, on that range. *)

Module Js.

(** [s.includes(needle)] *)
Fixpoint includes (needle hay : string) : bool :=
  if String.prefix needle hay then true
  else match hay with
       | EmptyString => false
       | String _ rest => includes needle rest
       end.

Definition is_upper (c : ascii) : bool :=
  let n := nat_of_ascii c in (Nat.leb 65 n && Nat.leb n 90)%bool.

Definition lower_char (c : ascii) : ascii :=
  if is_upper c then ascii_of_nat (nat_of_ascii c + 32) else c.

(** [s.toLowerCase()] *)
Fixpoint toLowerCase (s : string) : string :=
  match s with
  | EmptyString => EmptyString
  | String c rest => String (lower_char c) (toLowerCase rest)
  end.

(** [s.substring(start, end)]: the arguments are swapped when
    [start > end], and both are clamped to the length of [s]. *)
Definition substring (start end_ : nat) (s : string) : string :=
  String.substring (Nat.min start end_) (Nat.max start end_ - Nat.min start end_) s.

(** The first [n] characters of [fill] repeated for ever, [cur] being what
    is left of the current copy. *)
Fixpoint fill_chars (n : nat) (cur fill : string) : string :=
  match n with
  | O => EmptyString
  | S n' =>
      match cur with
      | String c cur' => String c (fill_chars n' cur' fill)
      | EmptyString =>
          match fill with
          | String c rest => String c (fill_chars n' rest fill)
          | EmptyString => EmptyString
          end
      end
  end.

(** [s.padStart(target, fill)] *)
Definition padStart (target : nat) (fill s : string) : string :=
  if Nat.leb target (String.length s) then s
  else fill_chars (target - String.length s) fill fill ++ s.

Definition is_space (c : ascii) : bool :=
  let n := nat_of_ascii c in
  ((Nat.leb 9 n && Nat.leb n 13) || Nat.eqb n 32)%bool.

Fixpoint trimStart (s : string) : string :=
  match s with
  | String c rest => if is_space c then trimStart rest else s
  | EmptyString => EmptyString
  end.

(** Removes the white space at the end: a character is dropped when it is
    white space and nothing is left after it. *)
Fixpoint trimEnd (s : string) : string :=
  match s with
  | EmptyString => EmptyString
  | String c rest =>
      match trimEnd rest with
      | EmptyString => if is_space c then EmptyString else String c EmptyString
      | kept => String c kept
      end
  end.

(** [s.trim()] *)
Definition trim (s : string) : string := trimEnd (trimStart s).

(** [String(n)] and [`${n}`] for an integer [n], in the range where
    JavaScript prints all the digits (below 10^21 in absolute value). *)
Definition of_number (n : Z) : string := NilZero.string_of_int (Z.to_int n).

(** [`${v}`] for a value that may be [undefined]. *)
Definition of_optional (v : option string) : string :=
  match v with Some s => s | None => "undefined" end.

(** The string a condition [if (v)] sees as true: defined and not empty. *)
Definition truthy (v : option string) : option string :=
  match v with
  | Some s => if String.eqb s "" then None else Some s
  | None => None
  end.

Definition newline : string := String (ascii_of_nat 10) EmptyString.

End Js.

(** ** Thrown values

    A thrown value is seen by the sources in two ways: through its [status]
    property (the hosting API's HTTP status) and through [String(error)]. *)

Record JsError := mkJsError { status : option Z; text : string }.

(** [new Error(message)]; [String] of it is the name, a colon and the message. *)
Definition new_Error (message : string) : JsError :=
  {| status := None; text := "Error: " ++ message |}.

Definition status_is (e : JsError) (code : Z) : bool :=
  match status e with Some c => Z.eqb c code | None => false end.

(** ** The data of a run *)

Record Repository := { owner : string; repo : string }.

Record Inputs := {
  baseBranch : option string;
  branch : option string;
  branchPrefix : string;
  useCommitSigning : bool
}.

Record ParsedGitHubContext := {
  repository : Repository;
  entityNumber : Z;
  isPR : bool;
  inputs : Inputs
}.

(** The fields [setupBranch] reads through the cast
    [githubData.contextData as GitHubPullRequest]. *)
Record GitHubPullRequest := {
  state : string;
  headRefName : string;
  baseRefName : string;
  commits_totalCount : Z
}.

Record FetchDataResult := { contextData : GitHubPullRequest }.

Record GitUser := { login : string; id : Z }.

Record BranchInfo := {
  bi_baseBranch : string;
  bi_claudeBranch : option string;
  bi_currentBranch : string
}.

(** The local-time fields read from [new Date()]; [getMonth] counts from 0. *)
Record DateFields := {
  getFullYear : Z;
  getMonth : Z;
  getDate : Z;
  getHours : Z;
  getMinutes : Z
}.

(** The git command lines the sources run through the shell. *)
Inductive gitcmd :=
| GitFetch (depth : option Z) (branchName : string)
    (* git fetch origin [--depth=N] <branch> *)
| GitCheckout (branchName : string)          (* git checkout <branch> *)
| GitCheckoutNew (branchName : string)       (* git checkout -b <branch> *)
| GitPushUpstream (branchName : string)      (* git push -u origin <branch> *)
| GitPush (target : string)                  (* git push origin <target> *)
| GitConfigGlobal (key value : string)       (* git config --global <key> <value> *)
| GitStatusPorcelain                         (* git status --porcelain *)
| GitAddAll                                  (* git add . *)
| GitCommit (message : string).              (* git commit -m <message> *)

(** What a collaborator answers: a value, or a thrown error. *)
Inductive reply (A : Type) :=
| Done (a : A)
| Failed (e : JsError).
Arguments Done {A} a.
Arguments Failed {A} e.

(** One entry of the history per call to a collaborator. *)
Inductive event :=
| EvNow (t : Z)                                          (* Date.now() *)
| EvNewDate (d : DateFields)                             (* new Date() *)
| EvGit (c : gitcmd) (r : reply string)                  (* $`git ...` and its stdout *)
| EvGetBranch (o r b : string) (a : reply unit)          (* rest.repos.getBranch *)
| EvReposGet (o r : string) (a : reply string)           (* rest.repos.get, default_branch *)
| EvGetRef (o r ref : string) (a : reply string)         (* rest.git.getRef, object.sha *)
| EvRefreshGitHubToken (a : reply string)
| EvReconfigureGitToken (token : string) (a : reply unit)
| EvParseGitHubContext (a : reply ParsedGitHubContext)
| EvSetOutput (name value : string)                      (* core.setOutput *)
| EvSetFailed (message : string)                         (* core.setFailed *)
| EvLog (message : string)                               (* console.log *)
| EvError (message : string).                            (* console.error *)

(** The collaborators.  Each answer may depend on everything that happened
    before the call: the history so far, newest entry first. *)
Record Env := {
  clock : list event -> Z;
  local_time : list event -> DateFields;
  shell : list event -> gitcmd -> reply string;
  repos_getBranch : list event -> string -> string -> string -> reply unit;
  repos_get : list event -> string -> string -> reply string;
  git_getRef : list event -> string -> string -> string -> reply string;
  token_refreshGitHubToken : list event -> reply string;
  config_reconfigureGitToken :
    list event -> string -> ParsedGitHubContext -> reply unit;
  context_parseGitHubContext : list event -> reply ParsedGitHubContext;
  process_env : string -> option string
}.

(** The state of a run: the history, newest entry first, and the [{ value }]
    objects in the order of their allocation; a reference is an index into
    [cells]. *)
Record State := { history : list event; cells : list Z }.

(** The history in the order of the calls. *)
Definition trace (s : State) : list event := rev (history s).

Definition ref := nat.

Definition initial : State := {| history := []; cells := [] |}.

(** How a computation ends: with a value, with a thrown error, or with
    [process.exit(code)], which no [catch] sees. *)
Inductive outcome (A : Type) :=
| Ok (a : A)
| Throw (e : JsError)
| Exit (code : Z).
Arguments Ok {A} a.
Arguments Throw {A} e.
Arguments Exit {A} code.

Definition M (A : Type) : Type := Env -> State -> outcome A * State.

Definition ret {A} (a : A) : M A := fun _ s => (Ok a, s).

Definition bind {A B} (m : M A) (k : A -> M B) : M B :=
  fun env s =>
    match m env s with
    | (Ok a, s') => k a env s'
    | (Throw e, s') => (Throw e, s')
    | (Exit c, s') => (Exit c, s')
    end.

Definition throw {A} (e : JsError) : M A := fun _ s => (Throw e, s).

Definition process_exit {A} (code : Z) : M A := fun _ s => (Exit code, s).

(** [try { body } catch (error) { handler }] *)
Definition try_catch {A} (body : M A) (handler : JsError -> M A) : M A :=
  fun env s =>
    match body env s with
    | (Throw e, s') => handler e env s'
    | other => other
    end.

Declare Scope js_scope.
Delimit Scope js_scope with js.
Notation "x <- m ;; k" := (bind m (fun x => k))
  (at level 100, m at next level, right associativity) : js_scope.
Notation "m ;; k" := (bind m (fun _ => k))
  (at level 100, right associativity) : js_scope.
Local Open Scope js_scope.

Definition record (e : event) (s : State) : State :=
  {| history := e :: history s; cells := cells s |}.

(** A call that cannot fail. *)
Definition emit (e : event) : M unit := fun _ s => (Ok tt, record e s).

(** A call to a collaborator: the answer is recorded, then returned or thrown. *)
Definition call {A} (answer : Env -> list event -> reply A)
    (entry : reply A -> event) : M A :=
  fun env s =>
    match answer env (history s) with
    | Done v => (Ok v, record (entry (Done v)) s)
    | Failed e => (Throw e, record (entry (Failed e)) s)
    end.

Definition Date_now : M Z :=
  fun env s => let t := clock env (history s) in (Ok t, record (EvNow t) s).

Definition new_Date : M DateFields :=
  fun env s => let d := local_time env (history s) in (Ok d, record (EvNewDate d) s).

Definition sh (c : gitcmd) : M string :=
  call (fun env h => shell env h c) (EvGit c).

Definition getBranch (o r b : string) : M unit :=
  call (fun env h => repos_getBranch env h o r b) (EvGetBranch o r b).

Definition reposGet (o r : string) : M string :=
  call (fun env h => repos_get env h o r) (EvReposGet o r).

Definition getRef (o r rf : string) : M string :=
  call (fun env h => git_getRef env h o r rf) (EvGetRef o r rf).

Definition refreshGitHubToken : M string :=
  call token_refreshGitHubToken EvRefreshGitHubToken.

Definition reconfigureGitToken (token : string) (context : ParsedGitHubContext)
    : M unit :=
  call (fun env h => config_reconfigureGitToken env h token context)
       (EvReconfigureGitToken token).

Definition parseGitHubContext : M ParsedGitHubContext :=
  call context_parseGitHubContext EvParseGitHubContext.

Definition setOutput (name value : string) : M unit := emit (EvSetOutput name value).
Definition setFailed (message : string) : M unit := emit (EvSetFailed message).
Definition console_log (message : string) : M unit := emit (EvLog message).
Definition console_error (message : string) : M unit := emit (EvError message).

Definition getenv (name : string) : M (option string) :=
  fun env s => (Ok (process_env env name), s).

(** [{ value: v }]: a new object, referred to by its index.  References
    only come from here, so a reference that is read or written is in range;
    outside it [read] would give 0 and [write] would do nothing. *)
Definition alloc (v : Z) : M ref :=
  fun _ s => (Ok (List.length (cells s)),
              {| history := history s; cells := cells s ++ [v] |}).

Fixpoint set_nth (i : nat) (v : Z) (l : list Z) : list Z :=
  match l, i with
  | [], _ => []
  | _ :: tl, O => v :: tl
  | x :: tl, S i' => x :: set_nth i' v tl
  end.

(** [r.value] *)
Definition read (r : ref) : M Z :=
  fun _ s => (Ok (nth r (cells s) 0), s).

(** [r.value = v] *)
Definition write (r : ref) (v : Z) : M unit :=
  fun _ s => (Ok tt, {| history := history s; cells := set_nth r v (cells s) |}).

(** ** token-refresh.ts *)

Module TokenRefresh.

(** [refreshTokenAndReconfigureGit(context, user)] *)
Definition refreshTokenAndReconfigureGit (context : ParsedGitHubContext)
    (user : option GitUser) : M string :=
  console_log "Refreshing GitHub token for continued git operations..." ;;
  try_catch
    (freshToken <- refreshGitHubToken ;;
     reconfigureGitToken freshToken context ;;
     console_log "✓ GitHub token refreshed and git authentication reconfigured" ;;
     ret freshToken)
    (fun error =>
       console_error ("Failed to refresh token and reconfigure git: " ++ text error) ;;
       throw (new_Error ("Token refresh failed: " ++ text error))).

Definition REFRESH_THRESHOLD_MS : Z := 45 * 60 * 1000.

(** [shouldRefreshToken(lastRefreshTime)] *)
Definition shouldRefreshToken (lastRefreshTime : Z) : M bool :=
  now <- Date_now ;;
  let elapsed := now - lastRefreshTime in
  ret (REFRESH_THRESHOLD_MS <=? elapsed).

(** The test on [String(error)] that decides the retry. *)
Definition token_related (errorMessage : string) : bool :=
  (Js.includes "authentication" errorMessage
   || Js.includes "401" errorMessage
   || Js.includes "403" errorMessage
   || Js.includes "token" errorMessage)%bool.

(** [withTokenRefresh(operation, context, user, lastRefreshTime)] *)
Definition withTokenRefresh {T} (operation : M T) (context : ParsedGitHubContext)
    (user : option GitUser) (lastRefreshTime : ref) : M T :=
  last <- read lastRefreshTime ;;
  stale <- shouldRefreshToken last ;;
  (if stale : bool
   then refreshTokenAndReconfigureGit context user ;;
        now <- Date_now ;;
        write lastRefreshTime now
   else ret tt) ;;
  try_catch operation
    (fun error =>
       let errorMessage := text error in
       if token_related errorMessage
       then
         console_log "Git operation failed, attempting token refresh and retry..." ;;
         try_catch
           (refreshTokenAndReconfigureGit context user ;;
            now <- Date_now ;;
            write lastRefreshTime now ;;
            operation)
           (fun retryError =>
              console_error ("Retry after token refresh also failed: " ++ text retryError) ;;
              throw retryError)
       else throw error).

End TokenRefresh.

(** ** branch.ts *)

Module Branch.
Import TokenRefresh.

Definition two_digits (n : Z) : string := Js.padStart 2 "0" (Js.of_number n).

(** The [YYYYMMDD-HHMM] token built from the local-time fields. *)
Definition timestamp (now : DateFields) : string :=
  Js.of_number (getFullYear now)
  ++ two_digits (getMonth now + 1)
  ++ two_digits (getDate now)
  ++ "-"
  ++ two_digits (getHours now)
  ++ two_digits (getMinutes now).

Definition entityType (isPR : bool) : string := if isPR then "pr" else "issue".

(** [`${branchPrefix}${entityType}-${entityNumber}-${timestamp}`] *)
Definition branchName (branchPrefix entityType : string) (entityNumber : Z)
    (timestamp : string) : string :=
  branchPrefix ++ entityType ++ "-" ++ Js.of_number entityNumber ++ "-" ++ timestamp.

(** [branchName.toLowerCase().substring(0, 50)] *)
Definition newBranch (branchName : string) : string :=
  Js.substring 0 50 (Js.toLowerCase branchName).

Definition closed_or_merged (prState : string) : bool :=
  (String.eqb prState "CLOSED" || String.eqb prState "MERGED")%bool.

(** The explicit base branch, or else the repository's default branch. *)
Definition base_or_default (o r : string) (baseBranch : option string) : M string :=
  match Js.truthy baseBranch with
  | Some b => ret b
  | None => reposGet o r
  end.

(** The branch of [setupBranch] taken when [inputs.branch] is given. *)
Definition useProvidedBranch (context : ParsedGitHubContext)
    (lastRefreshTime : ref) (branch : string) : M BranchInfo :=
  let o := owner (repository context) in
  let r := repo (repository context) in
  console_log ("Using provided branch: " ++ branch) ;;
  try_catch
    (getBranch o r branch ;;
     console_log ("Branch " ++ branch ++ " exists remotely"))
    (fun error =>
       if status_is error 404
       then throw (new_Error ("Specified branch '" ++ branch
                              ++ "' does not exist in the repository"))
       else throw error) ;;
  withTokenRefresh (sh (GitFetch None branch)) context None lastRefreshTime ;;
  sh (GitCheckout branch) ;;
  console_log ("Successfully checked out existing branch: " ++ branch) ;;
  detectedBaseBranch <- base_or_default o r (baseBranch (inputs context)) ;;
  setOutput "CLAUDE_BRANCH" branch ;;
  setOutput "BASE_BRANCH" detectedBaseBranch ;;
  ret {| bi_baseBranch := detectedBaseBranch;
         bi_claudeBranch := Some branch;
         bi_currentBranch := branch |}.

(** The branch of [setupBranch] for a pull request that is neither closed
    nor merged. *)
Definition checkoutOpenPR (prData : GitHubPullRequest)
    (context : ParsedGitHubContext) (lastRefreshTime : ref) : M BranchInfo :=
  console_log "This is an open PR, checking out PR branch..." ;;
  let branchName := headRefName prData in
  let commitCount := commits_totalCount prData in
  let fetchDepth := Z.max commitCount 20 in
  console_log ("PR #" ++ Js.of_number (entityNumber context) ++ ": "
               ++ Js.of_number commitCount ++ " commits, using fetch depth "
               ++ Js.of_number fetchDepth) ;;
  withTokenRefresh (sh (GitFetch (Some fetchDepth) branchName))
    context None lastRefreshTime ;;
  sh (GitCheckout branchName) ;;
  console_log ("Successfully checked out PR branch for PR #"
               ++ Js.of_number (entityNumber context)) ;;
  let baseBranch := baseRefName prData in
  ret {| bi_baseBranch := baseBranch;
         bi_claudeBranch := None;
         bi_currentBranch := branchName |}.

(** The rest of [setupBranch]: an issue, or a closed or merged pull request. *)
Definition createNewBranch (context : ParsedGitHubContext)
    (lastRefreshTime : ref) : M BranchInfo :=
  let o := owner (repository context) in
  let r := repo (repository context) in
  sourceBranch <- base_or_default o r (baseBranch (inputs context)) ;;
  let entityType := entityType (isPR context) in
  now <- new_Date ;;
  let timestamp := timestamp now in
  let branchName :=
    branchName (branchPrefix (inputs context)) entityType (entityNumber context)
               timestamp in
  let newBranch := newBranch branchName in
  try_catch
    (currentSHA <- getRef o r ("heads/" ++ sourceBranch) ;;
     console_log ("Source branch SHA: " ++ currentSHA) ;;
     if useCommitSigning (inputs context)
     then
       console_log ("Branch name generated: " ++ newBranch
                    ++ " (will be created by file ops server on first commit)") ;;
       setOutput "CLAUDE_BRANCH" newBranch ;;
       setOutput "BASE_BRANCH" sourceBranch ;;
       ret {| bi_baseBranch := sourceBranch;
              bi_claudeBranch := Some newBranch;
              bi_currentBranch := sourceBranch |}
     else
       console_log ("Creating local branch " ++ newBranch ++ " for " ++ entityType
                    ++ " #" ++ Js.of_number (entityNumber context)
                    ++ " from source branch: " ++ sourceBranch ++ "...") ;;
       sh (GitCheckoutNew newBranch) ;;
       withTokenRefresh (sh (GitPushUpstream newBranch)) context None lastRefreshTime ;;
       console_log ("Successfully created, checked out, and pushed local branch: "
                    ++ newBranch) ;;
       setOutput "CLAUDE_BRANCH" newBranch ;;
       setOutput "BASE_BRANCH" sourceBranch ;;
       ret {| bi_baseBranch := sourceBranch;
              bi_claudeBranch := Some newBranch;
              bi_currentBranch := newBranch |})
    (fun error =>
       console_error ("Error in branch setup: " ++ text error) ;;
       process_exit 1).

(** [setupBranch(octokits, githubData, context)]; the hosting API client
    [octokits] is part of the environment. *)
Definition setupBranch (githubData : FetchDataResult)
    (context : ParsedGitHubContext) : M BranchInfo :=
  t0 <- Date_now ;;
  lastRefreshTime <- alloc t0 ;;
  match Js.truthy (branch (inputs context)) with
  | Some branch => useProvidedBranch context lastRefreshTime branch
  | None =>
      if isPR context
      then
        let prData := contextData githubData in
        let prState := state prData in
        if closed_or_merged prState
        then
          console_log ("PR #" ++ Js.of_number (entityNumber context) ++ " is "
                       ++ prState ++ ", creating new branch from source...") ;;
          createNewBranch context lastRefreshTime
        else checkoutOpenPR prData context lastRefreshTime
      else createNewBranch context lastRefreshTime
  end.

End Branch.

(** ** The commit-and-push entry point *)

Module CommitAndPush.
Import TokenRefresh.

Definition or_else (a b : option string) : option string :=
  match Js.truthy a with Some s => Some s | None => b end.

Definition commitMessage (githubRunId workflow : option string)
    (triggeredBy : string) : string :=
  "Claude Code: Automated changes from workflow run " ++ Js.of_optional githubRunId
  ++ Js.newline ++ Js.newline
  ++ "Changes made by Claude Code action in response to trigger."
  ++ Js.newline ++ Js.newline
  ++ "Workflow: " ++ Js.of_optional workflow ++ Js.newline
  ++ "Run ID: " ++ Js.of_optional githubRunId ++ Js.newline
  ++ "Triggered by: " ++ triggeredBy.

(** [run()] *)
Definition run : M unit :=
  try_catch
    (context <- parseGitHubContext ;;
     claudeBranch <- getenv "CLAUDE_BRANCH" ;;
     githubRunId <- getenv "GITHUB_RUN_ID" ;;
     trigger <- getenv "TRIGGER_USERNAME" ;;
     actor <- getenv "GITHUB_ACTOR" ;;
     let triggeredBy :=
       match or_else trigger (or_else actor (Some "")) with
       | Some s => s
       | None => ""
       end in
     t0 <- Date_now ;;
     lastRefreshTime <- alloc t0 ;;
     sh (GitConfigGlobal "user.name" "claude-code-action[bot]") ;;
     sh (GitConfigGlobal "user.email"
           "claude-code-action[bot]@users.noreply.github.com") ;;
     gitStatus <- sh GitStatusPorcelain ;;
     let hasChanges := Nat.ltb 0 (String.length (Js.trim gitStatus)) in
     if negb hasChanges
     then
       console_log "No changes to commit" ;;
       setOutput "committed" "false" ;;
       ret tt
     else
       sh GitAddAll ;;
       workflow <- getenv "GITHUB_WORKFLOW" ;;
       let commitMessage := commitMessage githubRunId workflow triggeredBy in
       sh (GitCommit commitMessage) ;;
       match Js.truthy claudeBranch with
       | Some claudeBranch =>
           console_log ("Pushing to branch: " ++ claudeBranch) ;;
           withTokenRefresh (sh (GitPush claudeBranch)) context None lastRefreshTime ;;
           ret tt
       | None =>
           console_log "Pushing to current branch" ;;
           withTokenRefresh (sh (GitPush "HEAD")) context None lastRefreshTime ;;
           ret tt
       end ;;
       setOutput "committed" "true" ;;
       console_log "Successfully committed and pushed changes")
    (fun error =>
       console_error ("Error in commit and push: " ++ text error) ;;
       setFailed ("Failed to commit and push changes: " ++ text error) ;;
       process_exit 1).

End CommitAndPush.

(** ** structured-outputs-server.ts

    The two tool handlers of the server.  The server runs in a process of its
    own, so it has its own history: the appends to the output file and the
    console lines.  The registration of the tools and the transport belong to
    the protocol library and are not modelled. *)

Module StructuredOutputs.

(** What a handler reads of a thrown value: [error instanceof Error],
    [error.message] and [String(error)]. *)
Record Thrown := {
  instanceofError : bool;
  message : string;
  asString : string
}.

(** [new Error(message)] *)
Definition new_Error (message : string) : Thrown :=
  {| instanceofError := true; message := message;
     asString := "Error: " ++ message |}.

(** One entry of the history per call; [failure] is what [fs.appendFile]
    threw, if it did. *)
Inductive entry :=
| AppendFile (path content : string) (failure : option Thrown)
| Log (message : string)                                   (* console.log *)
| LogError (message : string).                             (* console.error *)

(** The process environment and the file system; the latter answers from the
    history so far, newest entry first. *)
Record Host := {
  GITHUB_OUTPUT : option string;
  fs_appendFile : list entry -> string -> string -> option Thrown
}.

(** [{ content: [{ type: "text", text }], isError }]; a result without
    [isError] has it false. *)
Record ToolResult := { content_text : string; isError : bool }.

Definition R (A : Type) : Type := Host -> list entry -> (A + Thrown) * list entry.

Definition pure {A} (a : A) : R A := fun _ h => (inl a, h).

Definition raise {A} (e : Thrown) : R A := fun _ h => (inr e, h).

Definition and_then {A B} (m : R A) (k : A -> R B) : R B :=
  fun host h =>
    match m host h with
    | (inl a, h') => k a host h'
    | (inr e, h') => (inr e, h')
    end.

(** [try { body } catch (error) { handler }] *)
Definition catching {A} (body : R A) (handler : Thrown -> R A) : R A :=
  fun host h =>
    match body host h with
    | (inr e, h') => handler e host h'
    | done => done
    end.

Declare Scope mcp_scope.
Delimit Scope mcp_scope with mcp.
Notation "x <-- m ;;; k" := (and_then m (fun x => k))
  (at level 100, m at next level, right associativity) : mcp_scope.
Notation "m ;;; k" := (and_then m (fun _ => k))
  (at level 100, right associativity) : mcp_scope.
Local Open Scope mcp_scope.

(** [process.env.GITHUB_OUTPUT] *)
Definition env_GITHUB_OUTPUT : R (option string) :=
  fun host h => (inl (GITHUB_OUTPUT host), h).

(** [await fs.appendFile(path, content)] *)
Definition appendFile (path content : string) : R unit :=
  fun host h =>
    match fs_appendFile host h path content with
    | None => (inl tt, AppendFile path content None :: h)
    | Some e => (inr e, AppendFile path content (Some e) :: h)
    end.

Definition console_log (message : string) : R unit :=
  fun _ h => (inl tt, Log message :: h).

Definition console_error (message : string) : R unit :=
  fun _ h => (inl tt, LogError message :: h).

(** [error instanceof Error ? error.message : String(error)] *)
Definition errorMessage (error : Thrown) : string :=
  if instanceofError error then message error else asString error.

(** The handler of the tool [set_action_output]. *)
Definition set_action_output (key value : string) : R ToolResult :=
  catching
    (githubOutput <-- env_GITHUB_OUTPUT ;;;
     match Js.truthy githubOutput with
     | None => raise (new_Error "GITHUB_OUTPUT environment variable not set")
     | Some githubOutput =>
         let prefixedKey := "claude_" ++ key in
         let hasNewlines := Js.includes Js.newline value in
         (if hasNewlines
          then
            let outputContent :=
              prefixedKey ++ "<<EOF" ++ Js.newline ++ value ++ Js.newline
              ++ "EOF" ++ Js.newline in
            appendFile githubOutput outputContent
          else
            let outputContent := prefixedKey ++ "=" ++ value ++ Js.newline in
            appendFile githubOutput outputContent) ;;;
         console_log ("Set GitHub Action output: " ++ prefixedKey ++ "="
                      ++ (if hasNewlines then "[multiline]" else value)) ;;;
         pure {| content_text :=
                   "Set output '" ++ prefixedKey ++ "' = "
                   ++ (if hasNewlines then "[multiline content]" else value);
                 isError := false |}
     end)
    (fun error =>
       let errorMessage := errorMessage error in
       console_error ("Error setting action output: " ++ errorMessage) ;;;
       pure {| content_text := "Error setting action output: " ++ errorMessage;
               isError := true |}).

(** The loop of [set_multiple_action_outputs] over [Object.keys(outputs)]:
    [outputs] is the object as the list of its keys, in the order of
    [Object.keys], each with its value, [None] for [undefined].  It returns
    [outputContent] and [prefixedKeys] as the loop leaves them. *)
Fixpoint collect (outputs : list (string * option string))
    (outputContent : string) (prefixedKeys : list string) : string * list string :=
  match outputs with
  | [] => (outputContent, prefixedKeys)
  | (key, None) :: rest => collect rest outputContent prefixedKeys
  | (key, Some value) :: rest =>
      let prefixedKey := "claude_" ++ key in
      let prefixedKeys := (prefixedKeys ++ [prefixedKey])%list in
      let hasNewlines := Js.includes Js.newline value in
      if hasNewlines
      then collect rest
             (outputContent ++ prefixedKey ++ "<<EOF" ++ Js.newline ++ value
              ++ Js.newline ++ "EOF" ++ Js.newline)
             prefixedKeys
      else collect rest
             (outputContent ++ prefixedKey ++ "=" ++ value ++ Js.newline)
             prefixedKeys
  end.

(** The handler of the tool [set_multiple_action_outputs]. *)
Definition set_multiple_action_outputs (outputs : list (string * option string))
    : R ToolResult :=
  catching
    (githubOutput <-- env_GITHUB_OUTPUT ;;;
     match Js.truthy githubOutput with
     | None => raise (new_Error "GITHUB_OUTPUT environment variable not set")
     | Some githubOutput =>
         let keys := map fst outputs in
         let '(outputContent, prefixedKeys) := collect outputs "" [] in
         appendFile githubOutput outputContent ;;;
         console_log ("Set " ++ Js.of_number (Z.of_nat (List.length keys))
                      ++ " GitHub Action outputs: "
                      ++ String.concat ", " prefixedKeys) ;;;
         pure {| content_text :=
                   "Set " ++ Js.of_number (Z.of_nat (List.length keys))
                   ++ " outputs: " ++ String.concat ", " prefixedKeys;
                 isError := false |}
     end)
    (fun error =>
       let errorMessage := errorMessage error in
       console_error ("Error setting multiple action outputs: " ++ errorMessage) ;;;
       pure {| content_text :=
                 "Error setting multiple action outputs: " ++ errorMessage;
               isError := true |}).

End StructuredOutputs.

(** * Observations

    What the properties below read off a run: the history it adds, the
    commands and named results in it, and the case of the decision. *)

Local Open Scope list_scope.

Definition is_console (e : event) : bool :=
  match e with
  | EvLog _ | EvError _ => true
  | _ => false
  end.

(** The calls to collaborators, without what was printed on the console. *)
Definition calls (t : list event) : list event :=
  filter (fun e => negb (is_console e)) t.

(** The answer to the first git command of a history, and what follows it. *)
Fixpoint after_first_git (t : list event) : option (reply string * list event) :=
  match t with
  | [] => None
  | EvGit _ r :: rest => Some (r, rest)
  | _ :: rest => after_first_git rest
  end.

(** The git commands of a history, in order. *)
Fixpoint git_cmds (t : list event) : list gitcmd :=
  match t with
  | [] => []
  | EvGit c _ :: rest => c :: git_cmds rest
  | _ :: rest => git_cmds rest
  end.

(** The named results given to [core.setOutput], in order. *)
Fixpoint outputs (t : list event) : list (string * string) :=
  match t with
  | [] => []
  | EvSetOutput name value :: rest => (name, value) :: outputs rest
  | _ :: rest => outputs rest
  end.

(** The answers of the credential issuer, in order: one per refresh. *)
Fixpoint refreshes (t : list event) : list (reply string) :=
  match t with
  | [] => []
  | EvRefreshGitHubToken a :: rest => a :: refreshes rest
  | _ :: rest => refreshes rest
  end.

Definition outcome_of {A} (r : reply A) : outcome A :=
  match r with
  | Done v => Ok v
  | Failed e => Throw e
  end.

(** The calls of a refresh that failed for [cause]: the issuer failed, or it
    answered and the reconfiguration of git failed. *)
Definition refresh_failed (cause : JsError) (l : list event) : Prop :=
  l = [EvRefreshGitHubToken (Failed cause)]
  \/ exists tok,
       l = [EvRefreshGitHubToken (Done tok); EvReconfigureGitToken tok (Failed cause)].

(** The calls of a recovery that went through: one refresh, the clock read
    for the refresh state, then the operation again, answered by [r2]. *)
Definition recovered (c : gitcmd) (r2 : reply string) (l : list event) : Prop :=
  exists tok t,
    l = [EvRefreshGitHubToken (Done tok); EvReconfigureGitToken tok (Done tt);
         EvNow t; EvGit c r2].

(** The context is a pull request that is neither closed nor merged, and no
    explicit branch is given: the second case of [setupBranch]. *)
Definition open_pull_request (githubData : FetchDataResult)
    (context : ParsedGitHubContext) : bool :=
  match Js.truthy (branch (inputs context)) with
  | Some _ => false
  | None =>
      (isPR context
       && negb (Branch.closed_or_merged (state (contextData githubData))))%bool
  end.

(** The context is an issue, or a closed or merged pull request, and no
    explicit branch is given: the third case of [setupBranch]. *)
Definition needs_new_branch (githubData : FetchDataResult)
    (context : ParsedGitHubContext) : bool :=
  match Js.truthy (branch (inputs context)) with
  | Some _ => false
  | None =>
      (negb (isPR context)
       || Branch.closed_or_merged (state (contextData githubData)))%bool
  end.

(** The source branch of a new branch: the explicit base branch, or else the
    default branch that the repository lookup answered in the history. *)
Definition source_branch (context : ParsedGitHubContext) (new : list event)
    (src : string) : Prop :=
  match Js.truthy (baseBranch (inputs context)) with
  | Some b => src = b
  | None =>
      In (EvReposGet (owner (repository context)) (repo (repository context))
                     (Done src)) new
  end.

(** The name generated for the entity of [context] at local time [d]. *)
Definition generated_name (context : ParsedGitHubContext) (d : DateFields) : string :=
  Branch.newBranch
    (Branch.branchName (branchPrefix (inputs context))
                       (Branch.entityType (isPR context))
                       (entityNumber context) (Branch.timestamp d)).

(** Every character of [s] passes the test [p]. *)
Fixpoint all_chars (p : ascii -> bool) (s : string) : bool :=
  match s with
  | EmptyString => true
  | String c rest => (p c && all_chars p rest)%bool
  end.

Definition not_upper (c : ascii) : bool := negb (Js.is_upper c).

Definition not_underscore (c : ascii) : bool := negb (Ascii.eqb c "_").

Definition digit_or_hyphen (c : ascii) : bool :=
  let n := nat_of_ascii c in
  ((Nat.leb 48 n && Nat.leb n 57) || Nat.eqb n 45)%bool.

(** ** Sample data for the closed examples *)

Module Sample.

Definition inputs0 (baseBranch branch : option string) (prefix : string)
    (signing : bool) : Inputs :=
  {| baseBranch := baseBranch; branch := branch; branchPrefix := prefix;
     useCommitSigning := signing |}.

Definition context0 (isPR : bool) (i : Inputs) : ParsedGitHubContext :=
  {| repository := {| owner := "octo"; repo := "demo" |};
     entityNumber := 42; isPR := isPR; inputs := i |}.

Definition pr0 (state : string) (commits : Z) : FetchDataResult :=
  {| contextData := {| state := state; headRefName := "feature/x";
                       baseRefName := "develop"; commits_totalCount := commits |} |}.

(** 15 March 2024, 14:30 local time. *)
Definition date0 : DateFields :=
  {| getFullYear := 2024; getMonth := 2; getDate := 15;
     getHours := 14; getMinutes := 30 |}.

Definition unauthorized : JsError :=
  {| status := None; text := "ShellError: remote: HTTP 401 bad credentials" |}.

Definition not_found : JsError :=
  {| status := Some 404; text := "HttpError: Not Found" |}.

Definition issuer_down : JsError :=
  {| status := Some 503; text := "HttpError: Service Unavailable" |}.

Definition is_git (e : event) : bool :=
  match e with EvGit _ _ => true | _ => false end.

(** An environment in which the clock stands at [now], and git, the token
    issuer, the branch lookup and the ref lookup answer as given; everything
    else succeeds, and the default branch is [main]. *)
Definition env0 (now : Z) (git : list event -> gitcmd -> reply string)
    (issuer : reply string) (lookup : reply unit) (tip : reply string) : Env :=
  {| clock := fun _ => now;
     local_time := fun _ => date0;
     shell := git;
     repos_getBranch := fun _ _ _ _ => lookup;
     repos_get := fun _ _ _ => Done "main";
     git_getRef := fun _ _ _ _ => tip;
     token_refreshGitHubToken := fun _ => issuer;
     config_reconfigureGitToken := fun _ _ _ => Done tt;
     context_parseGitHubContext :=
       fun _ => Done (context0 false (inputs0 None None "claude/" false));
     process_env := fun _ => None |}.

Definition git_ok : list event -> gitcmd -> reply string := fun _ _ => Done "".

Definition git_fails (e : JsError) : list event -> gitcmd -> reply string :=
  fun _ _ => Failed e.

(** The first git command fails with [e], the later ones succeed. *)
Definition git_fails_once (e : JsError) : list event -> gitcmd -> reply string :=
  fun h _ => if existsb is_git h then Done "" else Failed e.

Definition everything_works : Env :=
  env0 1000 git_ok (Done "t2") (Done tt) (Done "9fceb02").

(** An issue, and a pull request, of the repository [octo/demo]. *)
Definition issue (prefix : string) (signing : bool) : ParsedGitHubContext :=
  context0 false (inputs0 None None prefix signing).

Definition pull_request : ParsedGitHubContext :=
  context0 true (inputs0 None None "claude/" false).

(** A run that holds one refresh-state object, last refreshed at time 500. *)
Definition started : State := {| history := []; cells := [500] |}.

End Sample.

(** ** More observations *)

(** The fields of a local time as [Date] gives them, in a four-digit year. *)
Definition date_in_range (d : DateFields) : Prop :=
  1000 <= getFullYear d < 10000
  /\ 0 <= getMonth d < 12
  /\ 1 <= getDate d <= 31
  /\ 0 <= getHours d < 24
  /\ 0 <= getMinutes d < 60.

(** Checks [p] on the [len] integers from [lo] on. *)
Definition holds_from (p : Z -> bool) (lo : Z) (len : nat) : bool :=
  forallb (fun i => p (lo + Z.of_nat i)) (seq 0 len).

(** A branch prefix of 50 characters. *)
Definition prefix50 : string := "automation/claude-code-action/generated-branches/x".


(** The branches that the successful checkouts of a history moved to, in
    order: [git checkout <b>] and [git checkout -b <b>]. *)
Fixpoint checkouts (t : list event) : list string :=
  match t with
  | [] => []
  | EvGit (GitCheckout b) (Done _) :: rest => b :: checkouts rest
  | EvGit (GitCheckoutNew b) (Done _) :: rest => b :: checkouts rest
  | _ :: rest => checkouts rest
  end.


(** What [run] takes for the triggering actor: [TRIGGER_USERNAME], or else
    [GITHUB_ACTOR], or else the empty string. *)
Definition triggered_by (env : Env) : string :=
  match CommitAndPush.or_else (process_env env "TRIGGER_USERNAME")
          (CommitAndPush.or_else (process_env env "GITHUB_ACTOR") (Some "")) with
  | Some s => s
  | None => ""
  end.

(** What [run] pushes to: [CLAUDE_BRANCH] when set and not empty, or else
    [HEAD]. *)
Definition push_target (env : Env) : string :=
  match Js.truthy (process_env env "CLAUDE_BRANCH") with
  | Some b => b
  | None => "HEAD"
  end.

(** The git commands of a complete run of [run], the push and its one
    possible retry included. *)
Definition commit_plan (env : Env) : list gitcmd :=
  [GitConfigGlobal "user.name" "claude-code-action[bot]";
   GitConfigGlobal "user.email" "claude-code-action[bot]@users.noreply.github.com";
   GitStatusPorcelain;
   GitAddAll;
   GitCommit (CommitAndPush.commitMessage (process_env env "GITHUB_RUN_ID")
                (process_env env "GITHUB_WORKFLOW") (triggered_by env));
   GitPush (push_target env);
   GitPush (push_target env)].

(** The text that the successful appends of a server history have written,
    in the order of the writes. *)
Fixpoint appended_text (h : list StructuredOutputs.entry) : string :=
  match h with
  | [] => ""
  | StructuredOutputs.AppendFile _ content None :: older =>
      (appended_text older ++ content)%string
  | _ :: older => appended_text older
  end.

(** The appends that a server history attempted, newest first, each with its
    content and whether it succeeded. *)
Fixpoint append_attempts (h : list StructuredOutputs.entry) : list (string * bool) :=
  match h with
  | [] => []
  | StructuredOutputs.AppendFile _ content failure :: older =>
      (content, match failure with None => true | Some _ => false end)
      :: append_attempts older
  | _ :: older => append_attempts older
  end.

(** The tool [set_action_output] called for every key of [outputs] in turn,
    the keys without value left out; the results are dropped. *)
Fixpoint each_in_turn (outputs : list (string * option string))
    : StructuredOutputs.R unit :=
  match outputs with
  | [] => StructuredOutputs.pure tt
  | (key, None) :: rest => each_in_turn rest
  | (key, Some value) :: rest =>
      StructuredOutputs.and_then (StructuredOutputs.set_action_output key value)
        (fun _ => each_in_turn rest)
  end.

(** An output file whose appends always succeed. *)
Definition reliable (host : StructuredOutputs.Host) : Prop :=
  forall h path content, StructuredOutputs.fs_appendFile host h path content = None.

Definition not_equals_sign (c : ascii) : bool := negb (Ascii.eqb c "=").

(** The text is empty or ends with a newline. *)
Definition whole_lines (content : string) : Prop :=
  content = "" \/ exists body, content = (body ++ Js.newline)%string.

(** The call recorded by [e] was answered with a thrown error. *)
Definition failed (e : event) : bool :=
  match e with
  | EvGit _ (Failed _)
  | EvGetBranch _ _ _ (Failed _)
  | EvReposGet _ _ (Failed _)
  | EvGetRef _ _ _ (Failed _)
  | EvRefreshGitHubToken (Failed _)
  | EvReconfigureGitToken _ (Failed _)
  | EvParseGitHubContext (Failed _) => true
  | _ => false
  end.

(** The calls of a history that a collaborator answered with an error. *)
Definition failures (t : list event) : list event := filter failed t.

(** A decimal digit. *)
Definition is_digit (c : ascii) : bool :=
  let n := nat_of_ascii c in (Nat.leb 48 n && Nat.leb n 57)%bool.

(** * Symbolic execution

    [run_all] unfolds the monad in a hypothesis and splits on every answer of
    the environment, giving a name to every reading of the clock on the way;
    [end_of_run] then reads the outcome and the added events off the final
    state. *)

Ltac run_in H :=
  cbv beta iota zeta delta
    [sh getBranch reposGet getRef refreshGitHubToken reconfigureGitToken
     parseGitHubContext setOutput setFailed console_log console_error
     bind ret throw process_exit try_catch emit call Date_now new_Date
     getenv alloc read write record history cells fst snd] in H.

Ltac run_goal :=
  cbv beta iota zeta delta
    [sh getBranch reposGet getRef refreshGitHubToken reconfigureGitToken
     parseGitHubContext setOutput setFailed console_log console_error
     bind ret throw process_exit try_catch emit call Date_now new_Date
     getenv alloc read write record history cells fst snd].

Ltac split_answer_in H :=
  match type of H with
  | context [match ?x with _ => _ end] =>
      lazymatch x with
      | context [match _ with _ => _ end] => fail
      | _ => destruct x eqn:?
      end
  end.

Ltac split_answer :=
  match goal with
  | |- context [match ?x with _ => _ end] =>
      lazymatch x with
      | context [match _ with _ => _ end] => fail
      | _ => destruct x eqn:?
      end
  end.

Ltac name_readings H :=
  repeat match type of H with
    | context [clock ?env ?h] =>
        lazymatch h with
        | context [clock _ _] => fail
        | context [local_time _ _] => fail
        | _ => let t := fresh "t" in
               let E := fresh in
               remember (clock env h) as t eqn:E in H; clear E
        end
    | context [local_time ?env ?h] =>
        lazymatch h with
        | context [clock _ _] => fail
        | context [local_time _ _] => fail
        | _ => let d := fresh "d" in
               let E := fresh in
               remember (local_time env h) as d eqn:E in H; clear E
        end
    end.

Ltac run_all H :=
  run_in H; name_readings H;
  repeat (split_answer_in H; cbv beta iota zeta in H; name_readings H).

Ltac new_events H :=
  unfold trace in H; cbn [history rev] in H;
  repeat rewrite <- app_assoc in H;
  apply app_inv_head in H;
  cbn [app] in H.

Ltac end_of_run Hrun Htr new :=
  apply pair_equal_spec in Hrun; destruct Hrun as [<- <-];
  new_events Htr; subst new.

Ltac in_cases H :=
  cbn [In] in H;
  repeat (destruct H as [H | H]; [try discriminate H |]);
  try contradiction.

Ltac in_trace := cbv; repeat (first [left; reflexivity | right]).

Ltac one_of := cbn [In]; repeat (first [left; reflexivity | right]).

Ltac no_failure H := cbv beta iota delta [failures filter failed] in H.

Ltac unit_answers := repeat match goal with u : unit |- _ => destruct u end.

(** * The retry wrapper *)

Section RetryPolicy.
Import TokenRefresh.

Lemma shouldRefreshToken_run (env : Env) (s : State) (last : Z) :
  shouldRefreshToken last env s
  = (Ok (REFRESH_THRESHOLD_MS <=? clock env (history s) - last),
     record (EvNow (clock env (history s))) s).
Proof. reflexivity. Qed.

(** C1 (as amended).  When the operation of a call to [withTokenRefresh]
    fails with a message that contains "authentication", "401", "403" or
    "token", the wrapper attempts one refresh; if the refresh succeeds it
    invokes the operation once more and the outcome of that retry is the
    outcome of the call, and if the refresh fails the operation is not invoked
    again and the refresh failure is raised.  When the message contains none
    of the four, nothing happens after the failure: no refresh, no retry, and
    the failure is raised as it is. *)
Theorem withTokenRefresh_retry_policy
    (env : Env) (s s' : State) (c : gitcmd) (context : ParsedGitHubContext)
    (user : option GitUser) (lastRefreshTime : ref)
    (res : outcome string) (new post : list event) (e : JsError) :
  withTokenRefresh (sh c) context user lastRefreshTime env s = (res, s') ->
  trace s' = trace s ++ new ->
  after_first_git new = Some (Failed e, post) ->
  (token_related (text e) = true ->
     List.length (refreshes post) = 1%nat
     /\ ((exists r2, recovered c r2 (calls post) /\ res = outcome_of r2)
         \/ (exists cause,
               refresh_failed cause (calls post)
               /\ git_cmds post = []
               /\ res = Throw (new_Error ("Token refresh failed: " ++ text cause)%string))))
  /\ (token_related (text e) = false -> post = [] /\ res = Throw e).
Proof.
  intros Hrun Htr Hfirst.
  unfold withTokenRefresh, refreshTokenAndReconfigureGit, shouldRefreshToken in Hrun.
  destruct s as [h cs].
  run_all Hrun.
  all: end_of_run Hrun Htr new.
  all: cbn [after_first_git] in Hfirst; try discriminate Hfirst.
  all: injection Hfirst as <- <-.
  all: unit_answers.
  all: split; intros Hshape; try congruence.
  all: try (split; reflexivity).
  all: cbn [calls filter is_console negb refreshes git_cmds List.length].
  all: split; [reflexivity|].
  all: try (left; eexists; split; [do 2 eexists; reflexivity | reflexivity]).
  all: right; eexists; split; [| split; reflexivity].
  all: try (left; reflexivity).
  all: right; eexists; reflexivity.
Qed.

(** The theorem at a push that fails once with an HTTP 401 message and
    succeeds on the retry. *)
Lemma withTokenRefresh_retry_policy_witness :
  let env := Sample.env0 1000 (Sample.git_fails_once Sample.unauthorized)
               (Done "t2") (Done tt) (Done "") in
  let context := Sample.issue "claude/" false in
  let c := GitPush "HEAD" in
  let run := withTokenRefresh (sh c) context None 0%nat env Sample.started in
  let post := match after_first_git (trace (snd run)) with
              | Some (_, p) => p
              | None => []
              end in
  after_first_git (trace (snd run)) = Some (Failed Sample.unauthorized, post)
  /\ token_related (text Sample.unauthorized) = true
  /\ List.length (refreshes post) = 1%nat
  /\ ((exists r2, recovered c r2 (calls post) /\ fst run = outcome_of r2)
      \/ (exists cause,
            refresh_failed cause (calls post)
            /\ git_cmds post = []
            /\ fst run = Throw (new_Error ("Token refresh failed: " ++ text cause)%string))).
Proof.
  intros env context c run post.
  split; [reflexivity|]. split; [reflexivity|].
  apply (@withTokenRefresh_retry_policy env Sample.started (snd run) c context
           None 0%nat (fst run) (trace (snd run)) post Sample.unauthorized);
    reflexivity.
Defined.

(** The statement without the condition on the refresh fails: the push
    fails with an HTTP 401 message, the token issuer is down, and the push is
    not invoked a second time; the call raises the refresh failure. *)
Lemma withTokenRefresh_refresh_failure_no_retry :
  let env := Sample.env0 1000 (Sample.git_fails Sample.unauthorized)
               (Failed Sample.issuer_down) (Done tt) (Done "") in
  let context := Sample.issue "claude/" false in
  let run := withTokenRefresh (sh (GitPush "HEAD")) context None 0%nat env Sample.started in
  option_map fst (after_first_git (trace (snd run))) = Some (Failed Sample.unauthorized)
  /\ token_related (text Sample.unauthorized) = true
  /\ git_cmds (trace (snd run)) = [GitPush "HEAD"]
  /\ refreshes (trace (snd run)) = [Failed Sample.issuer_down]
  /\ fst run = Throw (new_Error "Token refresh failed: HttpError: Service Unavailable").
Proof. vm_compute. repeat split; reflexivity. Qed.

End RetryPolicy.

(** * The refresh state across a call *)

Lemma nth_set_nth (l : list Z) (i : nat) (v d : Z) :
  (i < List.length l)%nat -> nth i (set_nth i v l) d = v.
Proof.
  revert i; induction l as [|x l IH]; intros [|i] Hi; simpl in *;
    try lia; try reflexivity.
  apply IH; lia.
Qed.

(** A refresh does not touch the objects of the run. *)
Lemma refreshTokenAndReconfigureGit_cells (context : ParsedGitHubContext)
    (user : option GitUser) (env : Env) (s : State) :
  cells (snd (TokenRefresh.refreshTokenAndReconfigureGit context user env s)) = cells s.
Proof.
  unfold TokenRefresh.refreshTokenAndReconfigureGit.
  destruct s as [h cs]. run_goal.
  repeat (split_answer; cbv beta iota zeta); reflexivity.
Qed.

Section RefreshState.
Import TokenRefresh.

Context {T : Type}.
Variable operation : M T.
Variable context : ParsedGitHubContext.
Variable user : option GitUser.
Variable lastRefreshTime : ref.
Variable env : Env.

(** The operation leaves the objects of the run alone. *)
Hypothesis operation_cells : forall s, cells (snd (operation env s)) = cells s.

Let value (s : State) : Z := nth lastRefreshTime (cells s) 0.

Let retry_notice : event :=
  EvLog "Git operation failed, attempting token refresh and retry...".

(** C10 (as amended).  Take a call to [withTokenRefresh] whose pre-flight
    check does not fire and whose operation fails with error [e].  If the
    message of [e] is authentication-shaped and the refresh succeeds, the
    refresh state holds the time read after the refresh in the very state in
    which the retry is run, and still holds it when the call ends, whatever
    the retry does; if the refresh fails, or if the message is not
    authentication-shaped, the refresh state is unchanged when the call
    ends. *)
Theorem withTokenRefresh_refresh_state (s s2 s' : State) (res : outcome T)
    (e : JsError) :
  (lastRefreshTime < List.length (cells s))%nat ->
  fst (shouldRefreshToken (value s) env s) = Ok false ->
  operation env (snd (shouldRefreshToken (value s) env s)) = (Throw e, s2) ->
  withTokenRefresh operation context user lastRefreshTime env s = (res, s') ->
  (token_related (text e) = true ->
     match refreshTokenAndReconfigureGit context user env (record retry_notice s2) with
     | (Ok _, s3) =>
         let t := clock env (history s3) in
         let at_retry :=
           {| history := EvNow t :: history s3;
              cells := set_nth lastRefreshTime t (cells s3) |} in
         value at_retry = t
         /\ res = fst (operation env at_retry)
         /\ value s' = t
     | (_, _) => value s' = value s
     end)
  /\ (token_related (text e) = false -> res = Throw e /\ value s' = value s).
Proof.
  intros Hlive Hfresh Hfails Hrun.
  rewrite shouldRefreshToken_run in Hfresh, Hfails.
  cbn [fst snd] in Hfresh, Hfails. injection Hfresh as Hfresh.
  assert (Hs2 : cells s2 = cells s).
  { pose proof (operation_cells (record (EvNow (clock env (history s))) s)) as Hc.
    rewrite Hfails in Hc. exact Hc. }
  unfold withTokenRefresh, shouldRefreshToken in Hrun.
  unfold value, retry_notice in *.
  cbv beta iota zeta delta [bind ret read Date_now try_catch throw fst snd] in Hrun.
  rewrite Hfresh in Hrun. cbv beta iota zeta in Hrun.
  rewrite Hfails in Hrun. cbv beta iota zeta in Hrun.
  split; intros Hshape; rewrite Hshape in Hrun.
  - cbv beta iota zeta delta [console_log emit] in Hrun.
    pose proof (refreshTokenAndReconfigureGit_cells context user env
                  (record (EvLog "Git operation failed, attempting token refresh and retry...") s2))
      as Hcells.
    destruct (refreshTokenAndReconfigureGit context user env
                (record (EvLog "Git operation failed, attempting token refresh and retry...") s2))
      as [[tok | cause | code] s3];
      cbn [fst snd record cells] in Hcells; cbv beta iota zeta in Hrun.
    + cbv beta iota zeta delta [record write] in Hrun.
      cbn [history cells] in Hrun |- *.
      assert (Hlive3 : (lastRefreshTime < List.length (cells s3))%nat) by congruence.
      split; [apply nth_set_nth; exact Hlive3|].
      match goal with
      | |- context [operation env ?st] =>
          pose proof (operation_cells st) as Hop;
          destruct (operation env st) as [[v | e2 | code] s4]
      end;
        cbn [fst snd cells] in Hop; cbv beta iota zeta in Hrun;
        cbv beta iota zeta delta [console_error emit record bind throw] in Hrun;
        inversion Hrun; subst; cbn [fst cells];
        (split; [reflexivity|]); rewrite ?Hop; apply nth_set_nth; exact Hlive3.
    + cbv beta iota zeta delta [console_error emit record bind throw] in Hrun.
      inversion Hrun; subst. cbn [cells]. congruence.
    + inversion Hrun; subst. congruence.
  - inversion Hrun; subst. split; [reflexivity | congruence].
Qed.

End RefreshState.

Section RefreshStateExamples.
Import TokenRefresh.

Let context : ParsedGitHubContext := Sample.issue "claude/" false.

(** The theorem at a run in which every push fails with an HTTP 401 message
    and the refresh succeeds: the refresh state goes from 500 to the time of
    the refresh, 1000, although the retry fails too. *)
Lemma withTokenRefresh_refresh_state_witness :
  let env := Sample.env0 1000 (Sample.git_fails Sample.unauthorized)
               (Done "t2") (Done tt) (Done "") in
  let run := withTokenRefresh (sh (GitPush "HEAD")) context None 0%nat env Sample.started in
  fst run = Throw Sample.unauthorized
  /\ nth 0 (cells Sample.started) 0 = 500
  /\ nth 0 (cells (snd run)) 0 = 1000.
Proof.
  intros env run.
  split; [reflexivity|]. split; [reflexivity|].
  destruct (@withTokenRefresh_refresh_state string (sh (GitPush "HEAD")) context None
              0%nat env (fun s => eq_refl) Sample.started
              (snd (sh (GitPush "HEAD") env
                      (snd (shouldRefreshToken 500 env Sample.started))))
              (snd run) (fst run) Sample.unauthorized
              (le_n 1) eq_refl eq_refl eq_refl) as [Hauth _].
  exact (proj2 (proj2 (Hauth eq_refl))).
Defined.

(** The statement without the condition on the refresh fails: the
    pre-flight check does not fire (500 ms elapsed), the push fails with an
    HTTP 401 message, the token issuer is down, and the refresh state still
    holds 500 when the call ends. *)
Lemma withTokenRefresh_refresh_failure_keeps_state :
  let env := Sample.env0 1000 (Sample.git_fails Sample.unauthorized)
               (Failed Sample.issuer_down) (Done tt) (Done "") in
  let run := withTokenRefresh (sh (GitPush "HEAD")) context None 0%nat env Sample.started in
  fst (shouldRefreshToken 500 env Sample.started) = Ok false
  /\ option_map fst (after_first_git (trace (snd run))) = Some (Failed Sample.unauthorized)
  /\ token_related (text Sample.unauthorized) = true
  /\ nth 0 (cells Sample.started) 0 = 500
  /\ nth 0 (cells (snd run)) 0 = 500.
Proof. vm_compute. repeat split; reflexivity. Qed.

End RefreshStateExamples.

(** * Credential age *)

Section CredentialAge.
Import TokenRefresh.

(** C6.  [shouldRefreshToken] answers true exactly when the time elapsed
    since the last refresh is at least 45 minutes: false at 44 minutes, true
    at 45 minutes, false one millisecond before.  It reads the clock and does
    nothing else. *)
Theorem shouldRefreshToken_threshold (env : Env) (s : State) :
  let now := clock env (history s) in
  (forall last, exists b,
      shouldRefreshToken last env s = (Ok b, record (EvNow now) s)
      /\ (b = true <-> now - last >= 45 * 60 * 1000))
  /\ fst (shouldRefreshToken (now - 44 * 60 * 1000) env s) = Ok false
  /\ fst (shouldRefreshToken (now - 45 * 60 * 1000) env s) = Ok true
  /\ fst (shouldRefreshToken (now - (45 * 60 * 1000 - 1)) env s) = Ok false.
Proof.
  intros now.
  assert (Hat : forall elapsed,
             fst (shouldRefreshToken (now - elapsed) env s)
             = Ok (45 * 60 * 1000 <=? elapsed)).
  { intros elapsed. rewrite shouldRefreshToken_run. cbn [fst]. f_equal.
    fold now. unfold REFRESH_THRESHOLD_MS. f_equal. lia. }
  split; [| rewrite !Hat; repeat split; reflexivity].
  intros last. exists (REFRESH_THRESHOLD_MS <=? now - last).
  split; [reflexivity|].
  unfold REFRESH_THRESHOLD_MS. rewrite Z.leb_le. lia.
Qed.

End CredentialAge.

(** * Branch resolution *)

Section BranchResolution.
Import TokenRefresh Branch.

Variable githubData : FetchDataResult.
Variable context : ParsedGitHubContext.
Variable env : Env.
Variables s s' : State.
Variable res : outcome BranchInfo.
Variable new : list event.

Let o := owner (repository context).
Let r := repo (repository context).
Let prData := contextData githubData.

(** The run under study, and the events it adds to the history. *)
Hypothesis Hrun : setupBranch githubData context env s = (res, s').
Hypothesis Htr : trace s' = trace s ++ new.

Ltac explore :=
  unfold setupBranch, useProvidedBranch, checkoutOpenPR, createNewBranch,
    base_or_default, withTokenRefresh, refreshTokenAndReconfigureGit,
    shouldRefreshToken in Hrun;
  destruct s as [h cs];
  run_in Hrun.

(** C5.  When the context gives an explicit branch and the remote lookup of
    that branch fails with status 404, [setupBranch] throws an error whose
    message names the branch, and runs no git command: no fetch, no checkout.
    A lookup failure with any other status is thrown as it is, and no git
    command is run either. *)
Theorem setupBranch_branch_not_found (b : string) (e : JsError) :
  Js.truthy (branch (inputs context)) = Some b ->
  In (EvGetBranch o r b (Failed e)) new ->
  git_cmds new = []
  /\ (status e = Some 404 ->
      res = Throw (new_Error ("Specified branch '" ++ b
                              ++ "' does not exist in the repository")%string))
  /\ (status_is e 404 = false -> res = Throw e).
Proof.
  intros Hbranch Hlookup. subst o r.
  explore. rewrite Hbranch in Hrun.
  run_all Hrun.
  all: end_of_run Hrun Htr new.
  all: in_cases Hlookup.
  all: injection Hlookup as <-.
  all: split; [reflexivity|].
  all: split; [intros H404 | intros Hother].
  all: try reflexivity; try congruence.
  all: unfold status_is in *; rewrite H404 in *; discriminate.
Qed.

(** C7.  For a pull request that is neither closed nor merged, the only
    git commands of a run are the fetch of the head branch with depth
    [max(totalCount, 20)], made once or twice, and then the checkout of the
    head branch.  The run returns or throws; it returns exactly when the
    checkout has succeeded, and what it returns is the pull request's base
    branch as [baseBranch], its head branch as [currentBranch] and no
    [claudeBranch], after a successful fetch with that depth and without
    giving any named result.  When no collaborator answers with an error,
    the run fetches once with that depth, checks the head branch out and
    returns that record. *)
Theorem setupBranch_open_pull_request :
  open_pull_request githubData context = true ->
  let head := headRefName prData in
  let fetch := GitFetch (Some (Z.max (commits_totalCount prData) 20)) head in
  let expected :=
    {| bi_baseBranch := baseRefName prData;
       bi_claudeBranch := None;
       bi_currentBranch := head |} in
  In (git_cmds new)
     [ []; [fetch]; [fetch; fetch];
       [fetch; GitCheckout head]; [fetch; fetch; GitCheckout head] ]
  /\ (res = Ok expected \/ exists e, res = Throw e)
  /\ (res = Ok expected <-> exists out, In (EvGit (GitCheckout head) (Done out)) new)
  /\ (res = Ok expected ->
      (exists out, In (EvGit fetch (Done out)) new)
      /\ outputs new = []
      /\ (git_cmds new = [fetch; GitCheckout head]
          \/ git_cmds new = [fetch; fetch; GitCheckout head]))
  /\ (failures new = [] ->
      res = Ok expected /\ git_cmds new = [fetch; GitCheckout head]).
Proof.
  unfold open_pull_request. intros Hopen. subst prData.
  explore.
  destruct (Js.truthy (branch (inputs context))); [discriminate Hopen|].
  apply andb_prop in Hopen. destruct Hopen as [Hpr Hstate].
  apply negb_true_iff in Hstate.
  rewrite Hpr, Hstate in Hrun.
  run_all Hrun.
  all: end_of_run Hrun Htr new.
  all: split; [one_of|].
  all: split; [first [left; reflexivity | right; eexists; reflexivity] |].
  all: split;
    [split;
     [intros Hok; first [discriminate Hok | eexists; one_of]
     |intros [out Hin]; in_cases Hin; reflexivity] |].
  all: split;
    [intros Hok;
     first [discriminate Hok
           |split; [eexists; one_of |];
            split; [reflexivity |];
            first [left; reflexivity | right; reflexivity]] |].
  all: intros Hnone; no_failure Hnone;
    first [discriminate Hnone | split; reflexivity].
Qed.

(** C8.  For an issue or a closed or merged pull request, with commit
    signing delegated, [setupBranch] runs no git command at all, so no branch
    is created locally or pushed.  Whenever it returns, it returns the source
    branch as [baseBranch] and as [currentBranch], and the generated name as
    [claudeBranch]; it does return when the ref of the source branch
    resolves.  When no collaborator answers with an error, it looks up the
    ref [heads/<source>] and returns that record.  It fails to return in two
    ways only: the lookup of the default branch failed, and its error is
    thrown, or the lookup of the ref failed, and the process ends with
    status 1. *)
Theorem setupBranch_signing_defers_creation :
  needs_new_branch githubData context = true ->
  useCommitSigning (inputs context) = true ->
  git_cmds new = []
  /\ (forall info,
        res = Ok info ->
        exists src d,
          source_branch context new src
          /\ In (EvNewDate d) new
          /\ info = {| bi_baseBranch := src;
                       bi_claudeBranch := Some (generated_name context d);
                       bi_currentBranch := src |})
  /\ (forall ref sha,
        In (EvGetRef o r ref (Done sha)) new -> exists info, res = Ok info)
  /\ (failures new = [] ->
      exists src d sha,
        source_branch context new src
        /\ In (EvNewDate d) new
        /\ In (EvGetRef o r ("heads/" ++ src) (Done sha)) new
        /\ res = Ok {| bi_baseBranch := src;
                       bi_claudeBranch := Some (generated_name context d);
                       bi_currentBranch := src |})
  /\ ((exists info, res = Ok info)
      \/ (exists e, res = Throw e /\ In (EvReposGet o r (Failed e)) new)
      \/ (res = Exit 1 /\ exists ref e, In (EvGetRef o r ref (Failed e)) new)).
Proof.
  unfold needs_new_branch, source_branch, generated_name.
  intros Hleaf Hsign. subst o r prData.
  explore.
  destruct (Js.truthy (branch (inputs context))); [discriminate Hleaf|].
  rewrite Hsign in Hrun.
  destruct (isPR context); cbn [negb orb] in Hleaf; [rewrite Hleaf in Hrun|].
  all: run_all Hrun.
  all: end_of_run Hrun Htr new.
  all: split; [reflexivity|].
  all: split;
    [intros info Hok;
     first [discriminate Hok
           |injection Hok as <-;
            do 2 eexists; split; [first [reflexivity | cbn [In]; tauto] |];
            split; [cbn [In]; tauto | reflexivity]] |].
  all: split; [intros ref sha Hin; in_cases Hin; eexists; reflexivity |].
  all: split;
    [intros Hnone; no_failure Hnone;
     first [discriminate Hnone
           |do 3 eexists; split; [first [reflexivity | one_of] |];
            split; [one_of |]; split; [one_of | reflexivity]] |].
  all: first [left; eexists; reflexivity
             |right; left; eexists; split; [reflexivity | one_of]
             |right; right; split; [reflexivity | do 2 eexists; one_of]].
Qed.

(** C3 (as amended).  For an issue or a closed or merged pull request, when
    the lookup of the source branch's ref fails, [setupBranch] prints the
    failure on the error console and ends the process with status 1: no
    error reaches the caller, no named result is given and no git command is
    run. *)
Theorem setupBranch_source_branch_missing (ref : string) (e : JsError) :
  needs_new_branch githubData context = true ->
  In (EvGetRef o r ref (Failed e)) new ->
  res = Exit 1
  /\ In (EvError ("Error in branch setup: " ++ text e)%string) new
  /\ outputs new = []
  /\ git_cmds new = [].
Proof.
  unfold needs_new_branch.
  intros Hleaf Hlookup. subst o r prData.
  explore.
  destruct (Js.truthy (branch (inputs context))); [discriminate Hleaf|].
  destruct (isPR context); cbn [negb orb] in Hleaf; [rewrite Hleaf in Hrun|].
  all: run_all Hrun.
  all: end_of_run Hrun Htr new.
  all: in_cases Hlookup.
  all: injection Hlookup as <- <-.
  all: split; [reflexivity|].
  all: split; [cbn [In]; tauto|].
  all: split; reflexivity.
Qed.

(** C4 (as amended).  When [setupBranch] returns, the named results it has
    given are: none for a pull request that is neither closed nor merged
    (its result has no [claudeBranch]); in every other case exactly
    [CLAUDE_BRANCH], the [claudeBranch] of the result, then [BASE_BRANCH],
    the [baseBranch] of the result. *)
Theorem setupBranch_named_results (info : BranchInfo) :
  res = Ok info ->
  if open_pull_request githubData context
  then bi_claudeBranch info = None /\ outputs new = []
  else exists claude,
      bi_claudeBranch info = Some claude
      /\ outputs new = [("CLAUDE_BRANCH", claude); ("BASE_BRANCH", bi_baseBranch info)].
Proof.
  unfold open_pull_request.
  intros Hok. subst prData.
  explore.
  destruct (Js.truthy (branch (inputs context))).
  2: destruct (isPR context); cbn [andb];
     [destruct (closed_or_merged (state (contextData githubData))); cbn [negb]|].
  all: run_all Hrun.
  all: end_of_run Hrun Htr new.
  all: try discriminate Hok.
  all: injection Hok as <-.
  all: try (split; reflexivity).
  all: eexists; split; reflexivity.
Qed.

End BranchResolution.

Section BranchResolutionExamples.
Import TokenRefresh Branch.

(** The theorem at a run whose explicit branch [feature/y] is not found. *)
Lemma setupBranch_branch_not_found_witness :
  let context :=
    Sample.context0 false (Sample.inputs0 None (Some "feature/y") "claude/" false) in
  let env := Sample.env0 1000 Sample.git_ok (Done "t2")
               (Failed Sample.not_found) (Done "9fceb02") in
  let run := setupBranch (Sample.pr0 "OPEN" 3) context env initial in
  In (EvGetBranch "octo" "demo" "feature/y" (Failed Sample.not_found)) (trace (snd run))
  /\ git_cmds (trace (snd run)) = []
  /\ fst run = Throw (new_Error
                        "Specified branch 'feature/y' does not exist in the repository").
Proof.
  intros context env run.
  assert (Hlookup : In (EvGetBranch "octo" "demo" "feature/y" (Failed Sample.not_found))
                       (trace (snd run))) by in_trace.
  split; [exact Hlookup|].
  destruct (@setupBranch_branch_not_found (Sample.pr0 "OPEN" 3) context env initial
              (snd run) (fst run) (trace (snd run)) eq_refl eq_refl
              "feature/y" Sample.not_found eq_refl Hlookup) as [Hgit [H404 _]].
  split; [exact Hgit | exact (H404 eq_refl)].
Defined.

(** The theorem at two open pull requests, one of 37 commits and one of a
    single commit. *)
Lemma setupBranch_open_pull_request_witness :
  let run commits := setupBranch (Sample.pr0 "OPEN" commits) Sample.pull_request
                       Sample.everything_works initial in
  let expected := {| bi_baseBranch := "develop";
                     bi_claudeBranch := None;
                     bi_currentBranch := "feature/x" |} in
  (fst (run 37) = Ok expected
   /\ git_cmds (trace (snd (run 37)))
      = [GitFetch (Some 37) "feature/x"; GitCheckout "feature/x"])
  /\ (fst (run 1) = Ok expected
      /\ git_cmds (trace (snd (run 1)))
         = [GitFetch (Some 20) "feature/x"; GitCheckout "feature/x"]).
Proof.
  intros run expected.
  split.
  - destruct (@setupBranch_open_pull_request (Sample.pr0 "OPEN" 37) Sample.pull_request
                Sample.everything_works initial (snd (run 37)) (fst (run 37))
                (trace (snd (run 37))) eq_refl eq_refl eq_refl)
      as [_ [_ [_ [_ Hworks]]]].
    exact (Hworks eq_refl).
  - destruct (@setupBranch_open_pull_request (Sample.pr0 "OPEN" 1) Sample.pull_request
                Sample.everything_works initial (snd (run 1)) (fst (run 1))
                (trace (snd (run 1))) eq_refl eq_refl eq_refl)
      as [_ [_ [_ [_ Hworks]]]].
    exact (Hworks eq_refl).
Defined.

(** The theorem at an issue and at a closed pull request, with commit
    signing delegated. *)
Lemma setupBranch_signing_defers_creation_witness :
  let issue := Sample.issue "claude/" true in
  let closed := Sample.context0 true (Sample.inputs0 None None "claude/" true) in
  let run1 := setupBranch (Sample.pr0 "" 0) issue Sample.everything_works initial in
  let run2 := setupBranch (Sample.pr0 "CLOSED" 3) closed Sample.everything_works initial in
  (git_cmds (trace (snd run1)) = []
   /\ fst run1 = Ok {| bi_baseBranch := "main";
                       bi_claudeBranch := Some "claude/issue-42-20240315-1430";
                       bi_currentBranch := "main" |})
  /\ (git_cmds (trace (snd run2)) = []
      /\ fst run2 = Ok {| bi_baseBranch := "main";
                          bi_claudeBranch := Some "claude/pr-42-20240315-1430";
                          bi_currentBranch := "main" |}).
Proof.
  intros issue closed run1 run2.
  split.
  - destruct (@setupBranch_signing_defers_creation (Sample.pr0 "" 0) issue
                Sample.everything_works initial (snd run1) (fst run1) (trace (snd run1))
                eq_refl eq_refl eq_refl eq_refl) as [Hgit [_ [_ [Hworks _]]]].
    split; [exact Hgit|].
    destruct (Hworks eq_refl) as [src [d [sha [Hsrc [Hd [_ Hres]]]]]].
    cbv in Hsrc. in_cases Hsrc. injection Hsrc as <-.
    cbv in Hd. in_cases Hd. injection Hd as <-.
    exact Hres.
  - destruct (@setupBranch_signing_defers_creation (Sample.pr0 "CLOSED" 3) closed
                Sample.everything_works initial (snd run2) (fst run2) (trace (snd run2))
                eq_refl eq_refl eq_refl eq_refl) as [Hgit [_ [_ [Hworks _]]]].
    split; [exact Hgit|].
    destruct (Hworks eq_refl) as [src [d [sha [Hsrc [Hd [_ Hres]]]]]].
    cbv in Hsrc. in_cases Hsrc. injection Hsrc as <-.
    cbv in Hd. in_cases Hd. injection Hd as <-.
    exact Hres.
Defined.

(** The theorem at an issue whose source branch has no ref. *)
Lemma setupBranch_source_branch_missing_witness :
  let context := Sample.issue "claude/" false in
  let env := Sample.env0 1000 Sample.git_ok (Done "t2") (Done tt)
               (Failed Sample.not_found) in
  let run := setupBranch (Sample.pr0 "" 0) context env initial in
  fst run = Exit 1
  /\ In (EvError "Error in branch setup: HttpError: Not Found") (trace (snd run))
  /\ outputs (trace (snd run)) = []
  /\ git_cmds (trace (snd run)) = [].
Proof.
  intros context env run.
  apply (@setupBranch_source_branch_missing (Sample.pr0 "" 0) context env initial
           (snd run) (fst run) (trace (snd run)) eq_refl eq_refl
           "heads/main" Sample.not_found eq_refl).
  in_trace.
Defined.

(** The statement that the failure is thrown to the caller fails: the ref
    lookup of the source branch reports status 404, and the call to
    [setupBranch] does not throw; the process ends with status 1 inside it. *)
Lemma source_branch_missing_exits_process :
  let context := Sample.issue "claude/" false in
  let env := Sample.env0 1000 Sample.git_ok (Done "t2") (Done tt)
               (Failed Sample.not_found) in
  let run := setupBranch (Sample.pr0 "" 0) context env initial in
  In (EvGetRef "octo" "demo" "heads/main" (Failed Sample.not_found)) (trace (snd run))
  /\ fst run = Exit 1
  /\ forall e, fst run <> Throw e.
Proof.
  intros context env run.
  split; [in_trace|]. split; [reflexivity|].
  intros e H. discriminate H.
Qed.

(** The theorem at an issue without commit signing: the two named results
    are given. *)
Lemma setupBranch_named_results_witness :
  let context := Sample.issue "claude/" false in
  let run := setupBranch (Sample.pr0 "" 0) context Sample.everything_works initial in
  outputs (trace (snd run))
  = [("CLAUDE_BRANCH", "claude/issue-42-20240315-1430"); ("BASE_BRANCH", "main")].
Proof.
  intros context run.
  destruct (@setupBranch_named_results (Sample.pr0 "" 0) context Sample.everything_works
              initial (snd run) (fst run) (trace (snd run)) eq_refl eq_refl
              {| bi_baseBranch := "main";
                 bi_claudeBranch := Some "claude/issue-42-20240315-1430";
                 bi_currentBranch := "claude/issue-42-20240315-1430" |}
              eq_refl) as [claude [Hclaude Hout]].
  injection Hclaude as <-. exact Hout.
Defined.

(** The statement that includes the open pull request fails: for a pull
    request of 5 commits the resolution succeeds and gives no named result,
    not even the base branch. *)
Lemma open_pull_request_gives_no_named_result :
  let run := setupBranch (Sample.pr0 "OPEN" 5) Sample.pull_request
               Sample.everything_works initial in
  fst run = Ok {| bi_baseBranch := "develop";
                  bi_claudeBranch := None;
                  bi_currentBranch := "feature/x" |}
  /\ outputs (trace (snd run)) = []
  /\ git_cmds (trace (snd run)) = [GitFetch (Some 20) "feature/x"; GitCheckout "feature/x"].
Proof. cbv. repeat split; reflexivity. Qed.

End BranchResolutionExamples.

(** A new branch without commit signing, everything succeeding: the branch
    is created locally, pushed, and checked out. *)
Example setupBranch_creates_and_pushes :
  let run := Branch.setupBranch (Sample.pr0 "" 0) (Sample.issue "claude/" false)
               Sample.everything_works initial in
  git_cmds (trace (snd run))
  = [GitCheckoutNew "claude/issue-42-20240315-1430";
     GitPushUpstream "claude/issue-42-20240315-1430"]
  /\ fst run = Ok {| bi_baseBranch := "main";
                     bi_claudeBranch := Some "claude/issue-42-20240315-1430";
                     bi_currentBranch := "claude/issue-42-20240315-1430" |}.
Proof. cbv. split; reflexivity. Qed.

(** * Commit and push *)

Section CleanWorkingTree.
Import TokenRefresh CommitAndPush.

(** C9.  When the status query of [run] answers and its output, trimmed, is
    empty, [run] returns normally, gives the single named result
    [committed = false], and the only git commands it has run are the two
    settings of the git user and the status query: nothing is staged,
    committed or pushed. *)
Theorem run_clean_working_tree (env : Env) (s s' : State) (res : outcome unit)
    (new : list event) (out : string) :
  run env s = (res, s') ->
  trace s' = trace s ++ new ->
  In (EvGit GitStatusPorcelain (Done out)) new ->
  String.length (Js.trim out) = 0%nat ->
  res = Ok tt
  /\ outputs new = [("committed", "false")]
  /\ git_cmds new
     = [GitConfigGlobal "user.name" "claude-code-action[bot]";
        GitConfigGlobal "user.email" "claude-code-action[bot]@users.noreply.github.com";
        GitStatusPorcelain].
Proof.
  intros Hrun Htr Hstatus Hclean.
  unfold run, withTokenRefresh, refreshTokenAndReconfigureGit, shouldRefreshToken in Hrun.
  destruct s as [h cs].
  run_all Hrun.
  all: end_of_run Hrun Htr new.
  all: in_cases Hstatus.
  all: injection Hstatus as <-.
  all: try (rewrite Hclean in *; discriminate).
  all: repeat split; reflexivity.
Qed.

(** The theorem at a run whose status query prints a single newline. *)
Lemma run_clean_working_tree_witness :
  let env := Sample.env0 1000 (fun _ _ => Done Js.newline) (Done "t2") (Done tt)
               (Done "9fceb02") in
  let result := run env initial in
  fst result = Ok tt
  /\ outputs (trace (snd result)) = [("committed", "false")]
  /\ git_cmds (trace (snd result))
     = [GitConfigGlobal "user.name" "claude-code-action[bot]";
        GitConfigGlobal "user.email" "claude-code-action[bot]@users.noreply.github.com";
        GitStatusPorcelain].
Proof.
  intros env result.
  apply (@run_clean_working_tree env initial (snd result) (fst result)
           (trace (snd result)) Js.newline eq_refl eq_refl).
  - in_trace.
  - reflexivity.
Defined.

End CleanWorkingTree.

(** * The generated branch name *)

Section BranchName.
Import Branch.

Lemma all_chars_append (p : ascii -> bool) (a b : string) :
  all_chars p (a ++ b)%string = (all_chars p a && all_chars p b)%bool.
Proof.
  induction a as [|c a IH]; simpl; [reflexivity|].
  rewrite IH. apply andb_assoc.
Qed.

Lemma all_chars_weaken (p q : ascii -> bool) (s : string) :
  (forall c, p c = true -> q c = true) ->
  all_chars p s = true -> all_chars q s = true.
Proof.
  intros Hpq. induction s as [|c s IH]; simpl; [reflexivity|].
  intros H. apply andb_prop in H. destruct H as [Hc Hs].
  rewrite (Hpq c Hc), (IH Hs). reflexivity.
Qed.

Lemma all_chars_substring (p : ascii -> bool) (s : string) :
  all_chars p s = true ->
  forall n m, all_chars p (String.substring n m s) = true.
Proof.
  induction s as [|c s IH]; intros H n m.
  - destruct n, m; reflexivity.
  - simpl in H. apply andb_prop in H. destruct H as [Hc Hs].
    destruct n as [|n]; [destruct m as [|m]|]; simpl.
    + reflexivity.
    + rewrite Hc. apply IH. exact Hs.
    + apply IH. exact Hs.
Qed.

Lemma length_substring_le (s : string) (n m : nat) :
  (String.length (String.substring n m s) <= m)%nat.
Proof.
  revert n m. induction s as [|c s IH]; intros n m.
  - destruct n, m; simpl; lia.
  - destruct n as [|n]; [destruct m as [|m]|]; simpl.
    + lia.
    + specialize (IH 0%nat m). lia.
    + apply IH.
Qed.

Lemma lower_char_not_upper (c : ascii) : not_upper (Js.lower_char c) = true.
Proof. destruct c as [[|] [|] [|] [|] [|] [|] [|] [|]]; reflexivity. Qed.

Lemma lower_char_not_underscore (c : ascii) :
  not_underscore c = true -> not_underscore (Js.lower_char c) = true.
Proof. destruct c as [[|] [|] [|] [|] [|] [|] [|] [|]]; intros H; exact H || reflexivity. Qed.

Lemma toLowerCase_not_upper (s : string) :
  all_chars not_upper (Js.toLowerCase s) = true.
Proof.
  induction s as [|c s IH]; simpl; [reflexivity|].
  rewrite lower_char_not_upper, IH. reflexivity.
Qed.

Lemma toLowerCase_not_underscore (s : string) :
  all_chars not_underscore s = true ->
  all_chars not_underscore (Js.toLowerCase s) = true.
Proof.
  induction s as [|c s IH]; simpl; [reflexivity|].
  intros H. apply andb_prop in H. destruct H as [Hc Hs].
  rewrite (lower_char_not_underscore c Hc), (IH Hs). reflexivity.
Qed.

(** The generated name has at most 50 characters. *)
Lemma newBranch_length (name : string) : (String.length (newBranch name) <= 50)%nat.
Proof. unfold newBranch, Js.substring. apply length_substring_le. Qed.

(** The generated name has no upper-case letter. *)
Lemma newBranch_lower_case (name : string) : all_chars not_upper (newBranch name) = true.
Proof.
  unfold newBranch, Js.substring.
  apply all_chars_substring, toLowerCase_not_upper.
Qed.

Lemma string_of_uint_digits (d : Decimal.uint) :
  all_chars digit_or_hyphen (NilEmpty.string_of_uint d) = true.
Proof. induction d; simpl; try rewrite IHd; reflexivity. Qed.

Lemma NilZero_string_of_uint_digits (d : Decimal.uint) :
  all_chars digit_or_hyphen (NilZero.string_of_uint d) = true.
Proof.
  destruct d; try reflexivity;
    unfold NilZero.string_of_uint; apply string_of_uint_digits.
Qed.

Lemma of_number_digits (n : Z) : all_chars digit_or_hyphen (Js.of_number n) = true.
Proof.
  unfold Js.of_number, NilZero.string_of_int.
  destruct (Z.to_int n) as [d | d]; simpl;
    rewrite ?NilZero_string_of_uint_digits; reflexivity.
Qed.

Lemma fill_chars_zero (n : nat) (cur : string) :
  all_chars digit_or_hyphen cur = true ->
  all_chars digit_or_hyphen (Js.fill_chars n cur "0") = true.
Proof.
  revert cur. induction n as [|n IH]; intros cur Hcur; simpl; [reflexivity|].
  destruct cur as [|c cur]; simpl.
  - apply IH. reflexivity.
  - simpl in Hcur. apply andb_prop in Hcur. destruct Hcur as [Hc Hrest].
    rewrite Hc. apply IH. exact Hrest.
Qed.

Lemma two_digits_digits (n : Z) : all_chars digit_or_hyphen (two_digits n) = true.
Proof.
  unfold two_digits, Js.padStart.
  destruct (Nat.leb 2 (String.length (Js.of_number n))).
  - apply of_number_digits.
  - rewrite all_chars_append, of_number_digits, fill_chars_zero; reflexivity.
Qed.

Lemma timestamp_digits (d : DateFields) : all_chars digit_or_hyphen (timestamp d) = true.
Proof.
  unfold timestamp.
  rewrite !all_chars_append, of_number_digits, !two_digits_digits. reflexivity.
Qed.

Lemma digit_not_underscore (c : ascii) :
  digit_or_hyphen c = true -> not_underscore c = true.
Proof. destruct c as [[|] [|] [|] [|] [|] [|] [|] [|]]; intros H; exact H || reflexivity. Qed.

(** The generated name has no underscore when the prefix has none. *)
Lemma newBranch_no_underscore (prefix : string) (isPR : bool) (n : Z) (d : DateFields) :
  all_chars not_underscore prefix = true ->
  all_chars not_underscore
    (newBranch (branchName prefix (entityType isPR) n (timestamp d))) = true.
Proof.
  intros Hprefix. unfold newBranch, Js.substring, branchName.
  apply all_chars_substring, toLowerCase_not_underscore.
  rewrite !all_chars_append, Hprefix.
  rewrite (@all_chars_weaken _ _ _ digit_not_underscore (of_number_digits n)).
  rewrite (@all_chars_weaken _ _ _ digit_not_underscore (timestamp_digits d)).
  destruct isPR; reflexivity.
Qed.

(** The example of the format: prefix [claude-], issue 42, 15 March 2024
    at 14:30. *)
Example newBranch_example :
  newBranch (branchName "claude-" (entityType false) 42 (timestamp Sample.date0))
  = "claude-issue-42-20240315-1430".
Proof. reflexivity. Qed.

(** C2.  The name is the prefix, [pr] or [issue], the number and the
    [YYYYMMDD-HHMM] stamp, lower-cased and cut to 50 characters, and has no
    upper-case letter; but it keeps the underscores of the prefix: with the
    prefix [Claude_Bot/], issue 42 gets the branch
    [claude_bot/issue-42-20240315-1430], which [setupBranch] returns and
    gives as the named result [CLAUDE_BRANCH]. *)
Theorem newBranch_keeps_underscore :
  let context := Sample.issue "Claude_Bot/" true in
  let run := setupBranch (Sample.pr0 "" 0) context Sample.everything_works initial in
  let name := newBranch (branchName "Claude_Bot/" (entityType false) 42
                                    (timestamp Sample.date0)) in
  name = "claude_bot/issue-42-20240315-1430"
  /\ (String.length name <= 50)%nat
  /\ all_chars not_upper name = true
  /\ all_chars not_underscore name = false
  /\ fst run = Ok {| bi_baseBranch := "main";
                     bi_claudeBranch := Some name;
                     bi_currentBranch := "main" |}
  /\ outputs (trace (snd run)) = [("CLAUDE_BRANCH", name); ("BASE_BRANCH", "main")].
Proof. cbv. repeat split; try reflexivity. lia. Qed.

End BranchName.

(** * More on the generated branch name *)

Section BranchNameShape.
Import Branch.

Lemma length_append (a b : string) :
  String.length (a ++ b)%string = (String.length a + String.length b)%nat.
Proof. induction a as [|c a IH]; simpl; [reflexivity | now rewrite IH]. Qed.

Lemma string_app_assoc (a b c : string) :
  ((a ++ b) ++ c)%string = (a ++ b ++ c)%string.
Proof. induction a as [|x a IH]; simpl; [reflexivity | now rewrite IH]. Qed.

Lemma string_app_empty (a : string) : (a ++ "")%string = a.
Proof. induction a as [|x a IH]; simpl; [reflexivity | now rewrite IH]. Qed.

Lemma toLowerCase_append (a b : string) :
  Js.toLowerCase (a ++ b)%string = (Js.toLowerCase a ++ Js.toLowerCase b)%string.
Proof. induction a as [|c a IH]; simpl; [reflexivity | now rewrite IH]. Qed.

Lemma length_toLowerCase (a : string) :
  String.length (Js.toLowerCase a) = String.length a.
Proof. induction a as [|c a IH]; simpl; [reflexivity | now rewrite IH]. Qed.

Lemma substring_append_long (a b : string) (m : nat) :
  (m <= String.length a)%nat ->
  String.substring 0 m (a ++ b)%string = String.substring 0 m a.
Proof.
  revert m. induction a as [|c a IH]; intros m Hm; simpl in *.
  - assert (m = 0%nat) by lia. subst m. destruct b; reflexivity.
  - destruct m as [|m]; [reflexivity|]. rewrite IH by lia. reflexivity.
Qed.

Lemma substring_whole (a : string) (m : nat) :
  (String.length a <= m)%nat -> String.substring 0 m a = a.
Proof.
  revert m. induction a as [|c a IH]; intros m Hm; simpl in *.
  - destruct m; reflexivity.
  - destruct m as [|m]; [lia|]. rewrite IH by lia. reflexivity.
Qed.

(** A prefix of 50 characters or more takes the whole name: the entity
    type, the entity number and the time stamp are cut off, and every entity
    gets the same branch name at every time. *)
Theorem newBranch_long_prefix (prefix type stamp : string) (number : Z) :
  (50 <= String.length prefix)%nat ->
  newBranch (branchName prefix type number stamp) = newBranch prefix.
Proof.
  intros Hlong. unfold newBranch, branchName, Js.substring. cbn [Nat.min Nat.max Nat.sub].
  rewrite toLowerCase_append.
  apply substring_append_long. rewrite length_toLowerCase. exact Hlong.
Qed.

(** The theorem at a prefix of 50 characters: an issue and a pull request
    get the same branch at different times. *)
Lemma newBranch_long_prefix_witness :
  newBranch (branchName prefix50 (entityType false) 42 (timestamp Sample.date0))
  = newBranch (branchName prefix50 (entityType true) 7 "20251231-2359").
Proof.
  rewrite (@newBranch_long_prefix prefix50 (entityType false) (timestamp Sample.date0) 42)
    by (cbv; lia).
  rewrite (@newBranch_long_prefix prefix50 (entityType true) "20251231-2359" 7)
    by (cbv; lia).
  reflexivity.
Defined.

(** A name of at most 50 characters is only lower-cased: nothing is cut,
    so the time stamp at its end is kept. *)
Theorem newBranch_short_name (name : string) :
  (String.length name <= 50)%nat -> newBranch name = Js.toLowerCase name.
Proof.
  intros Hn. unfold newBranch, Js.substring. cbn [Nat.min Nat.max Nat.sub].
  apply substring_whole. rewrite length_toLowerCase. exact Hn.
Qed.

(** The theorem at a name of 29 characters. *)
Lemma newBranch_short_name_witness :
  newBranch "Claude/Issue-42-20240315-1430" = "claude/issue-42-20240315-1430".
Proof.
  rewrite (@newBranch_short_name "Claude/Issue-42-20240315-1430") by (cbv; lia).
  reflexivity.
Defined.

Lemma holds_from_spec (p : Z -> bool) (lo : Z) (len : nat) :
  holds_from p lo len = true ->
  forall n, lo <= n < lo + Z.of_nat len -> p n = true.
Proof.
  unfold holds_from. intros Hall n Hn.
  rewrite forallb_forall in Hall.
  replace n with (lo + Z.of_nat (Z.to_nat (n - lo))) by lia.
  apply Hall. apply in_seq. lia.
Qed.

Lemma two_digits_length (n : Z) :
  0 <= n < 100 -> String.length (two_digits n) = 2%nat.
Proof.
  intros Hn. apply Nat.eqb_eq.
  apply (@holds_from_spec (fun n => Nat.eqb (String.length (two_digits n)) 2) 0 100);
    [vm_compute; reflexivity | lia].
Qed.

Lemma year_length (n : Z) :
  1000 <= n < 10000 -> String.length (Js.of_number n) = 4%nat.
Proof.
  intros Hn. apply Nat.eqb_eq.
  apply (@holds_from_spec (fun n => Nat.eqb (String.length (Js.of_number n)) 4)
           1000 (Z.to_nat 9000));
    [vm_compute; reflexivity | lia].
Qed.

Lemma two_digits_all_digits (n : Z) :
  0 <= n < 100 -> all_chars is_digit (two_digits n) = true.
Proof.
  intros Hn.
  apply (@holds_from_spec (fun n => all_chars is_digit (two_digits n)) 0 100);
    [vm_compute; reflexivity | lia].
Qed.

Lemma year_all_digits (n : Z) :
  1000 <= n < 10000 -> all_chars is_digit (Js.of_number n) = true.
Proof.
  intros Hn.
  apply (@holds_from_spec (fun n => all_chars is_digit (Js.of_number n))
           1000 (Z.to_nat 9000));
    [vm_compute; reflexivity | lia].
Qed.

(** For such a time the stamp is eight digits, a hyphen and four digits,
    thirteen characters in all. *)
Theorem timestamp_shape (d : DateFields) :
  date_in_range d ->
  exists day time,
    timestamp d = (day ++ "-" ++ time)%string
    /\ String.length day = 8%nat
    /\ all_chars is_digit day = true
    /\ String.length time = 4%nat
    /\ all_chars is_digit time = true
    /\ String.length (timestamp d) = 13%nat.
Proof.
  intros (Hy & Hm & Hd & Hh & Hmin).
  exists (Js.of_number (getFullYear d) ++ two_digits (getMonth d + 1)
          ++ two_digits (getDate d))%string,
         (two_digits (getHours d) ++ two_digits (getMinutes d))%string.
  unfold timestamp.
  split; [rewrite !string_app_assoc; reflexivity|].
  rewrite !length_append, !all_chars_append.
  rewrite year_length, year_all_digits by lia.
  rewrite !two_digits_length, !two_digits_all_digits by lia.
  repeat split; reflexivity.
Qed.

(** The theorem at 15 March 2024, 14:30. *)
Lemma timestamp_shape_witness :
  exists day time,
    timestamp Sample.date0 = (day ++ "-" ++ time)%string
    /\ String.length day = 8%nat
    /\ all_chars is_digit day = true
    /\ String.length time = 4%nat
    /\ all_chars is_digit time = true
    /\ String.length (timestamp Sample.date0) = 13%nat.
Proof. apply timestamp_shape. cbv. repeat split; discriminate. Defined.

(** The name generated for any entity at any time has at most 50 characters
    and no upper-case letter. *)
Theorem generated_name_bounds (context : ParsedGitHubContext) (d : DateFields) :
  (String.length (generated_name context d) <= 50)%nat
  /\ all_chars not_upper (generated_name context d) = true.
Proof.
  unfold generated_name. split; [apply newBranch_length | apply newBranch_lower_case].
Qed.

(** The lemma on underscores at the prefix [claude/]. *)
Lemma newBranch_no_underscore_witness :
  all_chars not_underscore
    (newBranch (branchName "claude/" (entityType true) 7 (timestamp Sample.date0))) = true.
Proof. apply newBranch_no_underscore. reflexivity. Defined.

End BranchNameShape.

(** * The test that decides the retry *)

Section AuthenticationShape.
Import TokenRefresh.

Lemma prefix_append (n b : string) : String.prefix n (n ++ b)%string = true.
Proof.
  induction n as [|c n IH]; simpl; [destruct b; reflexivity|].
  destruct (ascii_dec c c) as [_|Hne]; [exact IH | now destruct Hne].
Qed.

Lemma prefix_split (n h : string) :
  String.prefix n h = true -> exists b, h = (n ++ b)%string.
Proof.
  revert h. induction n as [|c n IH]; intros h Hp.
  - exists h. reflexivity.
  - destruct h as [|d h]; simpl in Hp; [discriminate Hp|].
    destruct (ascii_dec c d) as [<-|]; [|discriminate Hp].
    destruct (IH h Hp) as [b ->]. exists b. reflexivity.
Qed.

(** [includes] is the substring test. *)
Lemma includes_spec (n h : string) :
  Js.includes n h = true <-> exists a b, h = (a ++ n ++ b)%string.
Proof.
  split.
  - induction h as [|c h IH]; cbn [Js.includes].
    + destruct (String.prefix n "") eqn:Hp; [|intros H; discriminate H].
      intros _. destruct (prefix_split n "" Hp) as [b Hb]. exists "", b. exact Hb.
    + destruct (String.prefix n (String c h)) eqn:Hp.
      * intros _. destruct (prefix_split n _ Hp) as [b Hb]. exists "", b. exact Hb.
      * intros Hin. destruct (IH Hin) as [a [b ->]]. exists (String c a), b. reflexivity.
  - intros [a [b ->]]. induction a as [|c a IH].
    + cbn [String.append]. destruct (n ++ b)%string eqn:Hnb; cbn [Js.includes];
        rewrite <- Hnb, prefix_append; reflexivity.
    + cbn [String.append Js.includes].
      destruct (String.prefix n (String c (a ++ n ++ b))); [reflexivity | exact IH].
Qed.

(** A message is authentication-shaped exactly when one of the four words
    "authentication", "401", "403" and "token" occurs in it, anywhere and in
    this very case. *)
Theorem token_related_spec (errorMessage : string) :
  token_related errorMessage = true
  <-> exists word before after,
        In word ["authentication"; "401"; "403"; "token"]
        /\ errorMessage = (before ++ word ++ after)%string.
Proof.
  unfold token_related. rewrite !orb_true_iff, !includes_spec. split.
  - intros [[[[a [b H]] | [a [b H]]] | [a [b H]]] | [a [b H]]];
      eexists _, a, b; (split; [|exact H]); cbn [In]; tauto.
  - intros [word [a [b [Hword H]]]]. cbn [In] in Hword.
    destruct Hword as [<- | [<- | [<- | [<- | []]]]]; eauto 8.
Qed.

(** A message that embeds an authentication-shaped message is
    authentication-shaped: the test is not lost when a failure is wrapped in
    a longer text. *)
Theorem token_related_embedded (before errorMessage after : string) :
  token_related errorMessage = true ->
  token_related (before ++ errorMessage ++ after)%string = true.
Proof.
  assert (Hembed : forall word,
             Js.includes word errorMessage = true ->
             Js.includes word (before ++ errorMessage ++ after)%string = true).
  { intros word Hin. apply includes_spec in Hin. destruct Hin as [a [b ->]].
    apply includes_spec. exists (before ++ a)%string, (b ++ after)%string.
    rewrite !string_app_assoc. reflexivity. }
  unfold token_related. rewrite !orb_true_iff.
  intros [[[H | H] | H] | H]; apply Hembed in H; rewrite H; tauto.
Qed.

(** The theorem at a failure of git printed after the name of the error. *)
Lemma token_related_embedded_witness :
  token_related "fatal: Authentication failed (token expired)" = true
  /\ token_related ("ShellError: " ++ "fatal: Authentication failed (token expired)"
                    ++ " [exit code 128]")%string = true.
Proof.
  split; [reflexivity|].
  apply (@token_related_embedded "ShellError: "
           "fatal: Authentication failed (token expired)" " [exit code 128]").
  reflexivity.
Defined.

End AuthenticationShape.

(** * More on the credential refresh *)

Section Refresh.
Import TokenRefresh.

(** A refresh asks the issuer once; git is reconfigured with the token the
    issuer gave, and only when it gave one; that token is the result.  When
    either step fails, the failure is printed and a new error is thrown whose
    message is the text of the cause after a fixed label: the status of the
    cause is not kept.  The objects of the run are left alone. *)
Theorem refreshTokenAndReconfigureGit_outcome
    (context : ParsedGitHubContext) (user : option GitUser) (env : Env)
    (s s' : State) (res : outcome string) (new : list event) :
  refreshTokenAndReconfigureGit context user env s = (res, s') ->
  trace s' = trace s ++ new ->
  cells s' = cells s
  /\ List.length (refreshes new) = 1%nat
  /\ ((exists tok,
         calls new = [EvRefreshGitHubToken (Done tok);
                      EvReconfigureGitToken tok (Done tt)]
         /\ res = Ok tok)
      \/ (exists cause,
            refresh_failed cause (calls new)
            /\ In (EvError ("Failed to refresh token and reconfigure git: "
                            ++ text cause)%string) new
            /\ res = Throw {| status := None;
                              text := ("Error: Token refresh failed: "
                                       ++ text cause)%string |})).
Proof.
  intros Hrun Htr.
  unfold refreshTokenAndReconfigureGit in Hrun.
  destruct s as [h cs].
  run_all Hrun.
  all: end_of_run Hrun Htr new.
  all: unit_answers.
  all: split; [reflexivity|]. all: split; [reflexivity|].
  all: cbn [calls filter is_console negb].
  all: try (left; eexists; split; reflexivity).
  all: right; eexists; split;
    [first [left; reflexivity | right; eexists; reflexivity]
    |split; [cbn [In]; tauto | reflexivity]].
Qed.

(** The theorem at a refresh whose issuer is down. *)
Lemma refreshTokenAndReconfigureGit_outcome_witness :
  let env := Sample.env0 1000 Sample.git_ok (Failed Sample.issuer_down)
               (Done tt) (Done "") in
  let run := refreshTokenAndReconfigureGit (Sample.issue "claude/" false) None
               env Sample.started in
  calls (trace (snd run)) = [EvRefreshGitHubToken (Failed Sample.issuer_down)]
  /\ fst run = Throw {| status := None;
                        text := "Error: Token refresh failed: HttpError: Service Unavailable" |}.
Proof.
  intros env run.
  split; [reflexivity|].
  destruct (@refreshTokenAndReconfigureGit_outcome (Sample.issue "claude/" false) None
              env Sample.started (snd run) (fst run) (trace (snd run))
              eq_refl eq_refl) as [_ [_ [[tok [_ Hres]] | [cause [_ [_ Hres]]]]]];
    [discriminate Hres | reflexivity].
Defined.

(** A call to [withTokenRefresh] never ends the process, invokes its
    operation at most twice and refreshes at most twice; and the value it
    returns is one the operation answered. *)
Theorem withTokenRefresh_bounded
    (env : Env) (s s' : State) (c : gitcmd) (context : ParsedGitHubContext)
    (user : option GitUser) (lastRefreshTime : ref)
    (res : outcome string) (new : list event) :
  withTokenRefresh (sh c) context user lastRefreshTime env s = (res, s') ->
  trace s' = trace s ++ new ->
  (forall code, res <> Exit code)
  /\ (git_cmds new = [] \/ git_cmds new = [c] \/ git_cmds new = [c; c])
  /\ (List.length (refreshes new) <= 2)%nat
  /\ (forall v, res = Ok v -> In (EvGit c (Done v)) new).
Proof.
  intros Hrun Htr.
  unfold withTokenRefresh, refreshTokenAndReconfigureGit, shouldRefreshToken in Hrun.
  destruct s as [h cs].
  run_all Hrun.
  all: end_of_run Hrun Htr new.
  all: split; [intros code Hc; discriminate Hc|].
  all: cbn [git_cmds refreshes List.length].
  all: split; [tauto|].
  all: split; [lia|].
  all: intros v Hv; first [discriminate Hv | injection Hv as <-; cbn [In]; tauto].
Qed.

(** The theorem at a push that fails once and succeeds on the retry. *)
Lemma withTokenRefresh_bounded_witness :
  let env := Sample.env0 1000 (Sample.git_fails_once Sample.unauthorized)
               (Done "t2") (Done tt) (Done "") in
  let run := withTokenRefresh (sh (GitPush "HEAD")) (Sample.issue "claude/" false)
               None 0%nat env Sample.started in
  git_cmds (trace (snd run)) = [GitPush "HEAD"; GitPush "HEAD"]
  /\ In (EvGit (GitPush "HEAD") (Done "")) (trace (snd run)).
Proof.
  intros env run.
  split; [reflexivity|].
  destruct (@withTokenRefresh_bounded env Sample.started (snd run) (GitPush "HEAD")
              (Sample.issue "claude/" false) None 0%nat (fst run) (trace (snd run))
              eq_refl eq_refl) as [_ [_ [_ Hvalue]]].
  exact (Hvalue "" eq_refl).
Defined.

(** When the first invocation of the operation succeeds, its answer is the
    result and nothing follows it: no refresh, no second invocation.  If
    moreover the pre-flight check did not fire, the call made no refresh at
    all and left the refresh state as it was. *)
Theorem withTokenRefresh_first_success
    (env : Env) (s s' : State) (c : gitcmd) (context : ParsedGitHubContext)
    (user : option GitUser) (lastRefreshTime : ref)
    (res : outcome string) (new post : list event) (v : string) :
  withTokenRefresh (sh c) context user lastRefreshTime env s = (res, s') ->
  trace s' = trace s ++ new ->
  after_first_git new = Some (Done v, post) ->
  res = Ok v
  /\ post = []
  /\ (fst (shouldRefreshToken (nth lastRefreshTime (cells s) 0) env s) = Ok false ->
      refreshes new = [] /\ cells s' = cells s /\ git_cmds new = [c]).
Proof.
  intros Hrun Htr Hfirst.
  rewrite shouldRefreshToken_run. cbn [fst].
  unfold withTokenRefresh, refreshTokenAndReconfigureGit, shouldRefreshToken in Hrun.
  destruct s as [h cs]. cbn [history cells].
  run_in Hrun.
  destruct (REFRESH_THRESHOLD_MS <=? clock env h - nth lastRefreshTime cs 0) eqn:Hstale.
  all: run_all Hrun.
  all: end_of_run Hrun Htr new.
  all: cbn [after_first_git] in Hfirst; try discriminate Hfirst.
  all: injection Hfirst as <- <-.
  all: split; [reflexivity|]. all: split; [reflexivity|].
  all: intros Hfresh; first [discriminate Hfresh | repeat split; reflexivity].
Qed.

(** The theorem at a push that succeeds at once with a fresh token. *)
Lemma withTokenRefresh_first_success_witness :
  let run := withTokenRefresh (sh (GitPush "HEAD")) (Sample.issue "claude/" false)
               None 0%nat Sample.everything_works Sample.started in
  fst run = Ok ""
  /\ trace (snd run) = [EvNow 1000; EvGit (GitPush "HEAD") (Done "")]
  /\ cells (snd run) = [500].
Proof.
  intros run.
  destruct (@withTokenRefresh_first_success Sample.everything_works Sample.started
              (snd run) (GitPush "HEAD") (Sample.issue "claude/" false) None 0%nat
              (fst run) (trace (snd run)) [] "" eq_refl eq_refl eq_refl)
    as [Hres [_ Hfresh]].
  destruct (Hfresh eq_refl) as [_ [Hcells _]].
  split; [exact Hres|]. split; [reflexivity | exact Hcells].
Defined.

(** When the pre-flight check fires, the refresh comes before any invocation
    of the operation.  If it fails, the operation is never invoked, the
    refresh failure is thrown and the refresh state is unchanged; if it
    succeeds, the clock is read again before the operation is invoked, and
    unless a second refresh follows, the refresh state holds that reading
    when the call ends. *)
Theorem withTokenRefresh_stale_token
    (env : Env) (s s' : State) (c : gitcmd) (context : ParsedGitHubContext)
    (user : option GitUser) (lastRefreshTime : ref)
    (res : outcome string) (new : list event) :
  withTokenRefresh (sh c) context user lastRefreshTime env s = (res, s') ->
  trace s' = trace s ++ new ->
  (lastRefreshTime < List.length (cells s))%nat ->
  fst (shouldRefreshToken (nth lastRefreshTime (cells s) 0) env s) = Ok true ->
  exists t0 rest,
    calls new = EvNow t0 :: rest
    /\ ((exists cause,
           refresh_failed cause rest
           /\ git_cmds new = []
           /\ cells s' = cells s
           /\ res = Throw (new_Error ("Token refresh failed: " ++ text cause)%string))
        \/ (exists tok t1 r1 more,
              rest = EvRefreshGitHubToken (Done tok)
                     :: EvReconfigureGitToken tok (Done tt)
                     :: EvNow t1 :: EvGit c r1 :: more
              /\ (refreshes more = [] -> nth lastRefreshTime (cells s') 0 = t1))).
Proof.
  intros Hrun Htr Hlive Hstale.
  rewrite shouldRefreshToken_run in Hstale. cbn [fst] in Hstale.
  injection Hstale as Hstale.
  unfold withTokenRefresh, refreshTokenAndReconfigureGit, shouldRefreshToken in Hrun.
  destruct s as [h cs]. cbn [history cells] in *.
  run_in Hrun. rewrite Hstale in Hrun.
  run_all Hrun.
  all: end_of_run Hrun Htr new.
  all: unit_answers.
  all: cbn [calls filter is_console negb git_cmds cells].
  all: do 2 eexists; split; [reflexivity|].
  all: try (left; eexists; split;
            [first [left; reflexivity | right; eexists; reflexivity]
            |repeat split; reflexivity]).
  all: right; do 4 eexists; split; [reflexivity|].
  all: cbn [refreshes]; intros Hnone; try discriminate Hnone.
  all: apply nth_set_nth; exact Hlive.
Qed.

(** The theorem at a push with a token refreshed 50 minutes before. *)
Lemma withTokenRefresh_stale_token_witness :
  let env := Sample.env0 3000500 Sample.git_ok (Done "t2") (Done tt) (Done "") in
  let run := withTokenRefresh (sh (GitPush "HEAD")) (Sample.issue "claude/" false)
               None 0%nat env Sample.started in
  fst (shouldRefreshToken 500 env Sample.started) = Ok true
  /\ calls (trace (snd run))
     = [EvNow 3000500; EvRefreshGitHubToken (Done "t2");
        EvReconfigureGitToken "t2" (Done tt); EvNow 3000500;
        EvGit (GitPush "HEAD") (Done "")]
  /\ exists t0 rest, calls (trace (snd run)) = EvNow t0 :: rest.
Proof.
  intros env run.
  split; [reflexivity|]. split; [reflexivity|].
  destruct (@withTokenRefresh_stale_token env Sample.started (snd run) (GitPush "HEAD")
              (Sample.issue "claude/" false) None 0%nat (fst run) (trace (snd run))
              eq_refl eq_refl (le_n 1) eq_refl) as [t0 [rest [Hcalls _]]].
  exists t0, rest. exact Hcalls.
Defined.

End Refresh.

(** * More on branch resolution *)

Section BranchResolutionMore.
Import TokenRefresh Branch.

Variable githubData : FetchDataResult.
Variable context : ParsedGitHubContext.
Variable env : Env.
Variables s s' : State.
Variable res : outcome BranchInfo.
Variable new : list event.

Let o := owner (repository context).
Let r := repo (repository context).

Hypothesis Hrun : setupBranch githubData context env s = (res, s').
Hypothesis Htr : trace s' = trace s ++ new.

Ltac explore :=
  unfold setupBranch, useProvidedBranch, checkoutOpenPR, createNewBranch,
    base_or_default, withTokenRefresh, refreshTokenAndReconfigureGit,
    shouldRefreshToken in Hrun;
  destruct s as [h cs];
  run_in Hrun.

(** With an explicit branch, whatever the entity is: every git command of
    the run is a fetch of that branch without depth or a checkout of it; the
    process is never ended; and whenever [setupBranch] returns, the branch is
    both [claudeBranch] and [currentBranch], the one successful checkout of
    the run moved to it, and [baseBranch] is the explicit base branch or else
    the default branch of the repository. *)
Theorem setupBranch_explicit_branch (b : string) :
  Js.truthy (branch (inputs context)) = Some b ->
  (forall c, In c (git_cmds new) -> c = GitFetch None b \/ c = GitCheckout b)
  /\ (forall code, res <> Exit code)
  /\ (forall info,
        res = Ok info ->
        bi_claudeBranch info = Some b
        /\ bi_currentBranch info = b
        /\ checkouts new = [b]
        /\ source_branch context new (bi_baseBranch info)
        /\ outputs new = [("CLAUDE_BRANCH", b); ("BASE_BRANCH", bi_baseBranch info)]).
Proof.
  unfold source_branch.
  intros Hbranch. subst o r.
  explore. rewrite Hbranch in Hrun.
  run_all Hrun.
  all: end_of_run Hrun Htr new.
  all: cbn [git_cmds checkouts outputs].
  all: split; [intros c Hin; in_cases Hin; subst c; tauto|].
  all: split; [intros code Hc; discriminate Hc|].
  all: intros info Hok; first [discriminate Hok | injection Hok as <-].
  all: cbn [bi_claudeBranch bi_currentBranch bi_baseBranch].
  all: repeat split; first [reflexivity | cbn [In]; tauto].
Qed.

(** For an issue or a closed or merged pull request without commit signing:
    the git commands of the run are at most the creation of the generated
    branch followed by one or two pushes of it; whenever [setupBranch]
    returns, the generated name is both [claudeBranch] and [currentBranch],
    the local creation succeeded and a push of the branch succeeded last;
    and a failure of the creation or of the push is never thrown to the
    caller. *)
Theorem setupBranch_creates_branch :
  needs_new_branch githubData context = true ->
  useCommitSigning (inputs context) = false ->
  (exists d,
      let name := generated_name context d in
      (git_cmds new = []
       \/ git_cmds new = [GitCheckoutNew name]
       \/ git_cmds new = [GitCheckoutNew name; GitPushUpstream name]
       \/ git_cmds new = [GitCheckoutNew name; GitPushUpstream name;
                          GitPushUpstream name])
      /\ (forall info,
            res = Ok info ->
            bi_claudeBranch info = Some name
            /\ bi_currentBranch info = name
            /\ checkouts new = [name]
            /\ source_branch context new (bi_baseBranch info)
            /\ exists out, In (EvGit (GitPushUpstream name) (Done out)) new))
  /\ (forall c a e, In (EvGit c a) new -> res <> Throw e).
Proof.
  unfold needs_new_branch, source_branch, generated_name.
  intros Hleaf Hsign. subst o r.
  explore.
  destruct (Js.truthy (branch (inputs context))); [discriminate Hleaf|].
  rewrite Hsign in Hrun.
  destruct (isPR context); cbn [negb orb] in Hleaf; [rewrite Hleaf in Hrun|].
  all: run_all Hrun.
  all: end_of_run Hrun Htr new.
  all: cbn [git_cmds checkouts].
  all: split; [| intros cmd answer thrown Hin; in_cases Hin; intros Hthrown;
                 discriminate Hthrown].
  all: first [match goal with d : DateFields |- _ => exists d end
             | exists (local_time env [])].
  all: split; [tauto|].
  all: intros info Hok; first [discriminate Hok | injection Hok as <-].
  all: cbn [bi_claudeBranch bi_currentBranch bi_baseBranch].
  all: split; [reflexivity|]. all: split; [reflexivity|].
  all: split; [reflexivity|].
  all: split; [first [reflexivity | cbn [In]; tauto]|].
  all: eexists; cbn [In]; tauto.
Qed.

(** Whatever the case, when [setupBranch] returns, [currentBranch] is the
    branch that the one successful checkout of the run moved to; or the run
    made no checkout at all, commit signing is delegated and [currentBranch]
    is [baseBranch]. *)
Theorem setupBranch_current_branch (info : BranchInfo) :
  res = Ok info ->
  checkouts new = [bi_currentBranch info]
  \/ (checkouts new = []
      /\ git_cmds new = []
      /\ useCommitSigning (inputs context) = true
      /\ bi_currentBranch info = bi_baseBranch info).
Proof.
  intros Hok.
  explore.
  run_all Hrun.
  all: end_of_run Hrun Htr new.
  all: first [discriminate Hok | injection Hok as <-].
  all: cbn [checkouts git_cmds bi_currentBranch bi_baseBranch].
  all: first [left; reflexivity | right; repeat split; first [reflexivity | assumption]].
Qed.

(** A failure of the lookup of the default branch is thrown to the caller as
    it is, in every case that makes the lookup; nothing follows it in the
    run, and in particular the process is not ended. *)
Theorem setupBranch_default_branch_unknown (e : JsError) :
  In (EvReposGet o r (Failed e)) new ->
  res = Throw e
  /\ last new (EvLog "") = EvReposGet o r (Failed e)
  /\ outputs new = [].
Proof.
  intros Hlookup. subst o r.
  explore.
  run_all Hrun.
  all: end_of_run Hrun Htr new.
  all: in_cases Hlookup.
  all: injection Hlookup as <-.
  all: repeat split; reflexivity.
Qed.

End BranchResolutionMore.

Section BranchResolutionMoreExamples.
Import Branch.

(** The theorem at an explicit branch [feature/y] that exists. *)
Lemma setupBranch_explicit_branch_witness :
  let context :=
    Sample.context0 true (Sample.inputs0 None (Some "feature/y") "claude/" false) in
  let run := setupBranch (Sample.pr0 "OPEN" 3) context Sample.everything_works initial in
  git_cmds (trace (snd run)) = [GitFetch None "feature/y"; GitCheckout "feature/y"]
  /\ fst run = Ok {| bi_baseBranch := "main";
                     bi_claudeBranch := Some "feature/y";
                     bi_currentBranch := "feature/y" |}
  /\ checkouts (trace (snd run)) = ["feature/y"].
Proof.
  intros context run.
  split; [reflexivity|]. split; [reflexivity|].
  destruct (@setupBranch_explicit_branch (Sample.pr0 "OPEN" 3) context
              Sample.everything_works initial (snd run) (fst run) (trace (snd run))
              eq_refl eq_refl "feature/y" eq_refl) as [_ [_ Hreturn]].
  destruct (Hreturn _ eq_refl) as [_ [_ [Hcheckouts _]]]. exact Hcheckouts.
Defined.

(** The theorem at an issue whose new branch is pushed on the second try. *)
Lemma setupBranch_creates_branch_witness :
  let env := Sample.env0 1000
               (fun h c => match c with
                           | GitPushUpstream _ =>
                               Sample.git_fails_once Sample.unauthorized
                                 (filter (fun e => match e with
                                                   | EvGit (GitPushUpstream _) _ => true
                                                   | _ => false
                                                   end) h) c
                           | _ => Done ""
                           end)
               (Done "t2") (Done tt) (Done "9fceb02") in
  let run := setupBranch (Sample.pr0 "" 0) (Sample.issue "claude/" false) env initial in
  git_cmds (trace (snd run))
  = [GitCheckoutNew "claude/issue-42-20240315-1430";
     GitPushUpstream "claude/issue-42-20240315-1430";
     GitPushUpstream "claude/issue-42-20240315-1430"]
  /\ forall e, fst run <> Throw e.
Proof.
  intros env run.
  split; [reflexivity|].
  destruct (@setupBranch_creates_branch (Sample.pr0 "" 0) (Sample.issue "claude/" false)
              env initial (snd run) (fst run) (trace (snd run))
              eq_refl eq_refl eq_refl eq_refl) as [_ Hnothrow].
  intros e.
  apply (Hnothrow (GitCheckoutNew "claude/issue-42-20240315-1430") (Done "") e).
  in_trace.
Defined.

(** The theorem at an issue with commit signing delegated: no checkout. *)
Lemma setupBranch_current_branch_witness :
  let run := setupBranch (Sample.pr0 "" 0) (Sample.issue "claude/" true)
               Sample.everything_works initial in
  checkouts (trace (snd run)) = []
  /\ (checkouts (trace (snd run)) = ["main"]
      \/ (checkouts (trace (snd run)) = []
          /\ git_cmds (trace (snd run)) = []
          /\ useCommitSigning (inputs (Sample.issue "claude/" true)) = true
          /\ "main" = "main")).
Proof.
  intros run.
  split; [reflexivity|].
  apply (@setupBranch_current_branch (Sample.pr0 "" 0) (Sample.issue "claude/" true)
           Sample.everything_works initial (snd run) (fst run) (trace (snd run))
           eq_refl eq_refl
           {| bi_baseBranch := "main";
              bi_claudeBranch := Some "claude/issue-42-20240315-1430";
              bi_currentBranch := "main" |} eq_refl).
Defined.

(** The theorem at an issue of a repository whose lookup fails. *)
Lemma setupBranch_default_branch_unknown_witness :
  let env := {| clock := fun _ => 1000;
                local_time := fun _ => Sample.date0;
                shell := Sample.git_ok;
                repos_getBranch := fun _ _ _ _ => Done tt;
                repos_get := fun _ _ _ => Failed Sample.issuer_down;
                git_getRef := fun _ _ _ _ => Done "9fceb02";
                token_refreshGitHubToken := fun _ => Done "t2";
                config_reconfigureGitToken := fun _ _ _ => Done tt;
                context_parseGitHubContext :=
                  fun _ => Done (Sample.issue "claude/" false);
                process_env := fun _ => None |} in
  let run := setupBranch (Sample.pr0 "" 0) (Sample.issue "claude/" false) env initial in
  fst run = Throw Sample.issuer_down
  /\ last (trace (snd run)) (EvLog "") = EvReposGet "octo" "demo" (Failed Sample.issuer_down)
  /\ outputs (trace (snd run)) = [].
Proof.
  intros env run.
  apply (@setupBranch_default_branch_unknown (Sample.pr0 "" 0)
           (Sample.issue "claude/" false) env initial (snd run) (fst run)
           (trace (snd run)) eq_refl eq_refl Sample.issuer_down).
  in_trace.
Defined.

End BranchResolutionMoreExamples.

(** * More on commit and push *)

Section CommitAndPushMore.
Import TokenRefresh CommitAndPush.

Variable env : Env.
Variables s s' : State.
Variable res : outcome unit.
Variable new : list event.

Hypothesis Hrun : run env s = (res, s').
Hypothesis Htr : trace s' = trace s ++ new.

Ltac explore :=
  unfold run, withTokenRefresh, refreshTokenAndReconfigureGit, shouldRefreshToken in Hrun;
  destruct s as [h cs];
  run_all Hrun;
  end_of_run Hrun Htr new.

(** [run] never throws.  It returns normally, or it ends the process with
    status 1 after printing the failure and marking the step as failed with
    the text of the failure; and it marks the step as failed in no other
    case. *)
Theorem run_failure_is_fatal :
  (res = Ok tt /\ forall m, ~ In (EvSetFailed m) new)
  \/ (res = Exit 1
      /\ outputs new = []
      /\ exists e,
          In (EvError ("Error in commit and push: " ++ text e)%string) new
          /\ last new (EvLog "")
             = EvSetFailed ("Failed to commit and push changes: " ++ text e)%string).
Proof.
  explore.
  all: first
    [left; split; [reflexivity | intros m Hin; in_cases Hin]
    |right; split; [reflexivity|]; split; [reflexivity|];
     eexists; split; [cbn [In]; tauto | reflexivity]].
Qed.

(** The git commands of a run are a beginning of the plan: the two settings
    of the git user, the status query, the staging, the commit and the push
    with its one possible retry, in this order.  So nothing is committed
    that was not staged, nothing is pushed that was not committed, and
    nothing is pushed but the target. *)
Theorem run_follows_plan :
  exists n, git_cmds new = firstn n (commit_plan env).
Proof.
  unfold commit_plan, triggered_by, push_target.
  explore.
  all: cbn [git_cmds].
  all: first [exists 0%nat; reflexivity | exists 1%nat; reflexivity
             | exists 2%nat; reflexivity | exists 3%nat; reflexivity
             | exists 4%nat; reflexivity | exists 5%nat; reflexivity
             | exists 6%nat; reflexivity | exists 7%nat; reflexivity].
Qed.

(** A run gives at most one named result, [committed].  A normal return
    always gives it, an ended process never does; and [committed = true] is
    given only after the commit succeeded and a push of the target
    succeeded. *)
Theorem run_committed_result :
  (res = Ok tt ->
   outputs new = [("committed", "false")] \/ outputs new = [("committed", "true")])
  /\ (res = Exit 1 -> outputs new = [])
  /\ (outputs new = [("committed", "true")] ->
      res = Ok tt
      /\ exists out1 out2 message,
          In (EvGit (GitCommit message) (Done out1)) new
          /\ last new (EvLog "") = EvLog "Successfully committed and pushed changes"
          /\ In (EvGit (GitPush (push_target env)) (Done out2)) new).
Proof.
  unfold push_target.
  explore.
  all: cbn [outputs].
  all: split; [intros Hres; first [discriminate Hres | tauto]|].
  all: split; [intros Hres; first [discriminate Hres | reflexivity]|].
  all: intros Hout; first [discriminate Hout | split; [reflexivity|]].
  all: do 3 eexists; split; [cbn [In]; tauto|]; split; [reflexivity | cbn [In]; tauto].
Qed.

End CommitAndPushMore.

Section CommitAndPushMoreExamples.
Import CommitAndPush.

Let dirty : list event -> gitcmd -> reply string :=
  fun _ c => match c with
             | GitStatusPorcelain => Done " M README.md"
             | _ => Done ""
             end.

Let commit_rejected : list event -> gitcmd -> reply string :=
  fun _ c => match c with
             | GitStatusPorcelain => Done " M README.md"
             | GitCommit _ => Failed Sample.unauthorized
             | _ => Done ""
             end.

(** The theorem at a run whose commit is rejected. *)
Lemma run_failure_is_fatal_witness :
  let env := Sample.env0 1000 commit_rejected (Done "t2") (Done tt) (Done "") in
  let result := run env initial in
  fst result = Exit 1
  /\ last (trace (snd result)) (EvLog "")
     = EvSetFailed "Failed to commit and push changes: ShellError: remote: HTTP 401 bad credentials".
Proof.
  intros env result.
  split; [reflexivity|].
  destruct (@run_failure_is_fatal env initial (snd result) (fst result)
              (trace (snd result)) eq_refl eq_refl)
    as [[Hok _] | [_ [_ [e [_ Hlast]]]]]; [discriminate Hok|].
  reflexivity.
Defined.

(** The theorem at the same run: it stops after the commit. *)
Lemma run_follows_plan_witness :
  let env := Sample.env0 1000 commit_rejected (Done "t2") (Done tt) (Done "") in
  let result := run env initial in
  git_cmds (trace (snd result)) = firstn 5 (commit_plan env)
  /\ exists n, git_cmds (trace (snd result)) = firstn n (commit_plan env).
Proof.
  intros env result.
  split; [reflexivity|].
  apply (@run_follows_plan env initial (snd result) (fst result)
           (trace (snd result)) eq_refl eq_refl).
Defined.

(** The theorem at a run that commits and pushes. *)
Lemma run_committed_result_witness :
  let env := Sample.env0 1000 dirty (Done "t2") (Done tt) (Done "") in
  let result := run env initial in
  outputs (trace (snd result)) = [("committed", "true")]
  /\ fst result = Ok tt
  /\ git_cmds (trace (snd result)) = firstn 6 (commit_plan env).
Proof.
  intros env result.
  split; [reflexivity|].
  destruct (@run_committed_result env initial (snd result) (fst result)
              (trace (snd result)) eq_refl eq_refl) as [_ [_ Hdone]].
  destruct (Hdone eq_refl) as [Hres _].
  split; [exact Hres | reflexivity].
Defined.

End CommitAndPushMoreExamples.

(** * A working tree with changes *)

Section DirtyWorkingTree.
Import TokenRefresh CommitAndPush.

Lemma trimEnd_nonempty (c : ascii) (rest : string) :
  Js.is_space c = false -> Js.trimEnd (String c rest) <> "".
Proof.
  intros Hc. cbn [Js.trimEnd]. rewrite Hc.
  destruct (Js.trimEnd rest); discriminate.
Qed.

(** An output is blank for [trim] exactly when all its characters are white
    space. *)
Lemma trim_blank (out : string) :
  String.length (Js.trim out) = 0%nat <-> all_chars Js.is_space out = true.
Proof.
  unfold Js.trim. induction out as [|c out IH]; cbn [Js.trimStart all_chars].
  - split; reflexivity.
  - destruct (Js.is_space c) eqn:Hc; cbn [andb]; [exact IH|].
    split; [|intros H; discriminate H].
    intros Hlen. pose proof (@trimEnd_nonempty c out Hc) as Hne.
    destruct (Js.trimEnd (String c out)); [now destruct Hne | discriminate Hlen].
Qed.

(** When the status query of [run] answers with anything but white space,
    [run] goes on to stage all changes, and does not report
    [committed = false]; an output of white space only is the clean working
    tree. *)
Theorem run_dirty_working_tree (env : Env) (s s' : State) (res : outcome unit)
    (new : list event) (out : string) :
  run env s = (res, s') ->
  trace s' = trace s ++ new ->
  In (EvGit GitStatusPorcelain (Done out)) new ->
  all_chars Js.is_space out = false ->
  nth_error (git_cmds new) 3 = Some GitAddAll
  /\ outputs new <> [("committed", "false")].
Proof.
  intros Hrun Htr Hstatus Hdirty.
  assert (Hlen : String.length (Js.trim out) <> 0%nat).
  { intros H. apply trim_blank in H. congruence. }
  unfold run, withTokenRefresh, refreshTokenAndReconfigureGit, shouldRefreshToken in Hrun.
  destruct s as [h cs].
  run_all Hrun.
  all: end_of_run Hrun Htr new.
  all: in_cases Hstatus.
  all: injection Hstatus as <-.
  all: try (exfalso; apply Hlen;
            match goal with
            | H : negb (Nat.ltb 0 ?n) = true |- _ =>
                apply negb_true_iff, Nat.ltb_ge in H; lia
            end).
  all: cbn [git_cmds outputs nth_error]; split; [reflexivity | discriminate].
Qed.

(** The theorem at a run whose status query reports one modified file. *)
Lemma run_dirty_working_tree_witness :
  let env := Sample.env0 1000 (fun _ c => match c with
                                          | GitStatusPorcelain => Done " M README.md"
                                          | _ => Done ""
                                          end)
               (Done "t2") (Done tt) (Done "") in
  let result := run env initial in
  nth_error (git_cmds (trace (snd result))) 3 = Some GitAddAll
  /\ outputs (trace (snd result)) <> [("committed", "false")].
Proof.
  intros env result.
  apply (@run_dirty_working_tree env initial (snd result) (fst result)
           (trace (snd result)) " M README.md" eq_refl eq_refl).
  - in_trace.
  - reflexivity.
Defined.

End DirtyWorkingTree.

(** * The structured outputs server *)

Section StructuredOutputsServer.
Import StructuredOutputs.

Ltac run_tool :=
  cbv beta iota zeta delta
    [set_action_output set_multiple_action_outputs catching and_then pure raise
     env_GITHUB_OUTPUT appendFile console_log console_error fst snd].

(** Without an output file, that is with [GITHUB_OUTPUT] unset or empty,
    neither tool attempts a write: each prints the failure and returns an
    error result that names the variable. *)
Theorem tools_need_output_file (host : Host) (h : list entry)
    (key value : string) (outputs : list (string * option string)) :
  Js.truthy (GITHUB_OUTPUT host) = None ->
  let missing := "GITHUB_OUTPUT environment variable not set" in
  set_action_output key value host h
  = (inl {| content_text := ("Error setting action output: " ++ missing)%string;
            isError := true |},
     LogError ("Error setting action output: " ++ missing)%string :: h)
  /\ set_multiple_action_outputs outputs host h
     = (inl {| content_text :=
                 ("Error setting multiple action outputs: " ++ missing)%string;
               isError := true |},
        LogError ("Error setting multiple action outputs: " ++ missing)%string :: h).
Proof.
  intros Hmissing. run_tool. rewrite Hmissing. split; reflexivity.
Qed.

(** The theorem at an empty [GITHUB_OUTPUT]. *)
Lemma tools_need_output_file_witness :
  let host := {| GITHUB_OUTPUT := Some ""; fs_appendFile := fun _ _ _ => None |} in
  append_attempts (snd (set_action_output "status" "done" host [])) = []
  /\ append_attempts
       (snd (set_multiple_action_outputs [("status", Some "done")] host [])) = [].
Proof.
  intros host.
  destruct (@tools_need_output_file host [] "status" "done" [("status", Some "done")]
              eq_refl) as [Hone Hmany].
  rewrite Hone, Hmany. split; reflexivity.
Defined.

(** Neither tool ever throws, and each attempts at most one write.  The
    result is an error exactly when nothing was written: either no write was
    attempted, or the one write failed, and then the text of the result
    carries the message of the failure.  A result that is not an error means
    the one write succeeded. *)
Theorem tool_result_reflects_write (host : Host) (h : list entry)
    (tool : R ToolResult) :
  (exists key value, tool = set_action_output key value)
  \/ (exists outputs, tool = set_multiple_action_outputs outputs) ->
  exists result h',
    tool host h = (inl result, h')
    /\ (isError result = false ->
        exists content,
          append_attempts h' = (content, true) :: append_attempts h
          /\ appended_text h' = (appended_text h ++ content)%string)
    /\ (isError result = true ->
        appended_text h' = appended_text h
        /\ (append_attempts h' = append_attempts h
            \/ exists content, append_attempts h' = (content, false) :: append_attempts h)).
Proof.
  intros [[key [value ->]] | [outputs ->]]; run_tool.
  all: destruct (Js.truthy (GITHUB_OUTPUT host)) as [path|].
  all: try (do 2 eexists; split; [reflexivity|];
            split; [intros H; discriminate H | intros _; split; [reflexivity | left; reflexivity]]).
  - destruct (Js.includes Js.newline value);
      match goal with
      | |- context [fs_appendFile host h path ?c] =>
          destruct (fs_appendFile host h path c)
      end;
      do 2 eexists; (split; [reflexivity|]); cbn [isError append_attempts appended_text];
      (split; [intros H; first [discriminate H | eexists; split; reflexivity]
              | intros H; first [discriminate H
                                | split; [reflexivity | right; eexists; reflexivity]]]).
  - destruct (collect outputs "" []) as [outputContent prefixedKeys].
    destruct (fs_appendFile host h path outputContent);
      do 2 eexists; (split; [reflexivity|]); cbn [isError append_attempts appended_text];
      (split; [intros H; first [discriminate H | eexists; split; reflexivity]
              | intros H; first [discriminate H
                                | split; [reflexivity | right; eexists; reflexivity]]]).
Qed.

(** The theorem at an output file that cannot be written. *)
Lemma tool_result_reflects_write_witness :
  let host := {| GITHUB_OUTPUT := Some "/tmp/out";
                 fs_appendFile :=
                   fun _ _ _ => Some {| instanceofError := true;
                                        message := "EACCES: permission denied";
                                        asString := "Error: EACCES: permission denied" |} |} in
  exists h',
    set_action_output "status" "done" host []
    = (inl {| content_text := "Error setting action output: EACCES: permission denied";
              isError := true |}, h')
    /\ appended_text h' = "".
Proof.
  intros host.
  destruct (@tool_result_reflects_write host [] (set_action_output "status" "done")
              (or_introl (ex_intro _ "status" (ex_intro _ "done" eq_refl))))
    as [result [h' [Hrun [_ Hfailed]]]].
  exists h'. cbv in Hrun. injection Hrun as <- <-. split; reflexivity.
Defined.

Lemma collect_content (outputs : list (string * option string))
    (acc : string) (keys : list string) :
  fst (collect outputs acc keys) = (acc ++ fst (collect outputs "" []))%string.
Proof.
  revert acc keys. induction outputs as [|[key [value|]] rest IH]; intros acc keys.
  - cbn. now rewrite string_app_empty.
  - cbn [collect]. destruct (Js.includes Js.newline value);
      rewrite IH; rewrite (IH (String.append "" _)); cbn [String.append];
      now rewrite string_app_assoc.
  - cbn [collect]. apply IH.
Qed.

Lemma each_in_turn_appended (host : Host) (outputs : list (string * option string))
    (path : string) :
  Js.truthy (GITHUB_OUTPUT host) = Some path ->
  reliable host ->
  forall h,
    appended_text (snd (each_in_turn outputs host h))
    = (appended_text h ++ fst (collect outputs "" []))%string.
Proof.
  intros Hpath Hfs.
  induction outputs as [|[key [value|]] rest IH]; intros h.
  - cbn. now rewrite string_app_empty.
  - cbn [each_in_turn collect]. unfold and_then at 1.
    assert (Hone : exists result,
               set_action_output key value host h
               = (inl result,
                  Log ("Set GitHub Action output: " ++ ("claude_" ++ key) ++ "="
                       ++ (if Js.includes Js.newline value then "[multiline]" else value))%string
                  :: AppendFile path
                       (if Js.includes Js.newline value
                        then (("claude_" ++ key) ++ "<<EOF" ++ Js.newline ++ value
                              ++ Js.newline ++ "EOF" ++ Js.newline)%string
                        else (("claude_" ++ key) ++ "=" ++ value ++ Js.newline)%string)
                       None
                  :: h)).
    { run_tool. rewrite Hpath.
      destruct (Js.includes Js.newline value); rewrite Hfs; eexists; reflexivity. }
    destruct Hone as [result Hone]. rewrite Hone.
    rewrite IH. cbn [appended_text].
    destruct (Js.includes Js.newline value);
      rewrite (collect_content rest (String.append "" _)); cbn [String.append];
      now rewrite string_app_assoc.
  - cbn [each_in_turn collect]. apply IH.
Qed.

(** With an output file whose appends succeed, [set_multiple_action_outputs]
    writes, in its single append, exactly the text that calling
    [set_action_output] for each key in turn would have written, the keys
    whose value is undefined being skipped. *)
Theorem set_multiple_writes_as_each_in_turn (host : Host) (h : list entry)
    (outputs : list (string * option string)) (path : string) :
  Js.truthy (GITHUB_OUTPUT host) = Some path ->
  reliable host ->
  appended_text (snd (set_multiple_action_outputs outputs host h))
  = appended_text (snd (each_in_turn outputs host h))
  /\ List.length (append_attempts (snd (set_multiple_action_outputs outputs host h)))
     = S (List.length (append_attempts h)).
Proof.
  intros Hpath Hfs.
  rewrite (@each_in_turn_appended host outputs path Hpath Hfs).
  run_tool. rewrite Hpath.
  destruct (collect outputs "" []) as [outputContent prefixedKeys].
  rewrite Hfs. split; reflexivity.
Qed.

(** The theorem at three keys, one without value and one of two lines. *)
Lemma set_multiple_writes_as_each_in_turn_witness :
  let host := {| GITHUB_OUTPUT := Some "/tmp/out"; fs_appendFile := fun _ _ _ => None |} in
  let outputs := [("status", Some "done"); ("skipped", None);
                  ("notes", Some ("a" ++ Js.newline ++ "b")%string)] in
  appended_text (snd (set_multiple_action_outputs outputs host []))
  = appended_text (snd (each_in_turn outputs host [])).
Proof.
  intros host outputs.
  apply (@set_multiple_writes_as_each_in_turn host [] outputs "/tmp/out" eq_refl).
  intros h path content. reflexivity.
Defined.

Lemma append_newline_whole (a : string) : whole_lines (a ++ Js.newline)%string.
Proof. right. exists a. reflexivity. Qed.

Lemma collect_whole_lines (outputs : list (string * option string))
    (acc : string) (keys : list string) :
  whole_lines acc -> whole_lines (fst (collect outputs acc keys)).
Proof.
  revert acc keys. induction outputs as [|[key [value|]] rest IH]; intros acc keys Hacc.
  - exact Hacc.
  - cbn [collect]. destruct (Js.includes Js.newline value); apply IH.
    + replace (acc ++ ("claude_" ++ key) ++ "<<EOF" ++ Js.newline ++ value
               ++ Js.newline ++ "EOF" ++ Js.newline)%string
        with ((acc ++ ("claude_" ++ key) ++ "<<EOF" ++ Js.newline ++ value
               ++ Js.newline ++ "EOF") ++ Js.newline)%string
        by (rewrite !string_app_assoc; reflexivity).
      apply append_newline_whole.
    + replace (acc ++ ("claude_" ++ key) ++ "=" ++ value ++ Js.newline)%string
        with ((acc ++ ("claude_" ++ key) ++ "=" ++ value) ++ Js.newline)%string
        by (rewrite !string_app_assoc; reflexivity).
      apply append_newline_whole.
  - cbn [collect]. apply IH. exact Hacc.
Qed.

(** Whatever the keys and values, every text that the two tools hand to
    [fs.appendFile] is empty or ends with a newline, so an output file made
    of whole lines stays made of whole lines after a call to either tool. *)
Theorem tools_write_whole_lines (host : Host) (h : list entry)
    (key value : string) (outputs : list (string * option string)) :
  whole_lines (appended_text h) ->
  whole_lines (appended_text (snd (set_action_output key value host h)))
  /\ whole_lines (appended_text (snd (set_multiple_action_outputs outputs host h)))
  /\ (forall content ok,
        In (content, ok) (append_attempts (snd (set_action_output key value host [])))
        \/ In (content, ok)
             (append_attempts (snd (set_multiple_action_outputs outputs host []))) ->
        whole_lines content).
Proof.
  intros Hfile.
  pose proof (@collect_whole_lines outputs "" [] (or_introl eq_refl)) as Hmany.
  assert (Hline : forall body, whole_lines (appended_text h ++ body ++ Js.newline)%string).
  { intros body. rewrite <- string_app_assoc. apply append_newline_whole. }
  assert (Hjoin : forall c, whole_lines c -> whole_lines (appended_text h ++ c)%string).
  { intros c [-> | [body ->]]; [rewrite string_app_empty; exact Hfile | apply Hline]. }
  assert (Hone : whole_lines
                   (if Js.includes Js.newline value
                    then (("claude_" ++ key) ++ "<<EOF" ++ Js.newline ++ value
                          ++ Js.newline ++ "EOF" ++ Js.newline)%string
                    else (("claude_" ++ key) ++ "=" ++ value ++ Js.newline)%string)).
  { destruct (Js.includes Js.newline value).
    - replace (("claude_" ++ key) ++ "<<EOF" ++ Js.newline ++ value
               ++ Js.newline ++ "EOF" ++ Js.newline)%string
        with ((("claude_" ++ key) ++ "<<EOF" ++ Js.newline ++ value
               ++ Js.newline ++ "EOF") ++ Js.newline)%string
        by (rewrite !string_app_assoc; reflexivity).
      apply append_newline_whole.
    - replace (("claude_" ++ key) ++ "=" ++ value ++ Js.newline)%string
        with ((("claude_" ++ key) ++ "=" ++ value) ++ Js.newline)%string
        by (rewrite !string_app_assoc; reflexivity).
      apply append_newline_whole. }
  run_tool.
  destruct (Js.truthy (GITHUB_OUTPUT host)) as [path|].
  2: { cbn [snd append_attempts appended_text].
       repeat split; try assumption. intros content ok [[] | []]. }
  destruct (collect outputs "" []) as [outputContent prefixedKeys].
  cbn [fst] in Hmany.
  destruct (Js.includes Js.newline value);
    repeat match goal with
      | |- context [fs_appendFile host ?hh path ?c] =>
          destruct (fs_appendFile host hh path c)
      end;
    cbn [fst snd append_attempts appended_text In];
    (split; [auto|]); (split; [auto|]);
    intros content ok [[Heq | []] | [Heq | []]]; injection Heq as <- <-; assumption.
Qed.

(** The theorem at an empty output file. *)
Lemma tools_write_whole_lines_witness :
  let host := {| GITHUB_OUTPUT := Some "/tmp/out"; fs_appendFile := fun _ _ _ => None |} in
  whole_lines (appended_text (snd (set_multiple_action_outputs [] host [])))
  /\ whole_lines (appended_text (snd (set_action_output "a=b" "c" host []))).
Proof.
  intros host.
  destruct (@tools_write_whole_lines host [] "a=b" "c" [] (or_introl eq_refl))
    as [Hone [Hmany _]].
  split; assumption.
Defined.

Lemma split_at_unique (c : ascii) (a a' b b' : string) :
  all_chars (fun x => negb (Ascii.eqb x c)) a = true ->
  all_chars (fun x => negb (Ascii.eqb x c)) a' = true ->
  (a ++ String c b)%string = (a' ++ String c b')%string ->
  a = a' /\ b = b'.
Proof.
  revert a'. induction a as [|x a IH]; intros [|y a'] Ha Ha' Heq; simpl in *.
  - injection Heq as <-. split; reflexivity.
  - injection Heq as <- _. rewrite Ascii.eqb_refl in Ha'. discriminate Ha'.
  - injection Heq as -> _. rewrite Ascii.eqb_refl in Ha. discriminate Ha.
  - injection Heq as <- Heq.
    apply andb_prop in Ha. apply andb_prop in Ha'.
    destruct (IH a' (proj2 Ha) (proj2 Ha') Heq) as [<- <-]. split; reflexivity.
Qed.

Lemma append_char_inj (x : ascii) (a b : string) :
  (a ++ String x "")%string = (b ++ String x "")%string -> a = b.
Proof.
  revert b. induction a as [|c a IH]; intros [|d b] Heq; simpl in *.
  - reflexivity.
  - injection Heq as _ Heq. destruct b; discriminate Heq.
  - injection Heq as _ Heq. destruct a; discriminate Heq.
  - injection Heq as <- Heq. now rewrite (IH b Heq).
Qed.

(** With an output file whose appends succeed, the line that
    [set_action_output] writes for a value without newline determines the
    key and the value, as long as keys hold no equals sign: two calls that
    write the same text were given the same key and the same value. *)
Theorem set_action_output_line_determines_entry (host : Host) (path : string)
    (key1 value1 key2 value2 : string) :
  Js.truthy (GITHUB_OUTPUT host) = Some path ->
  reliable host ->
  all_chars not_equals_sign key1 = true ->
  all_chars not_equals_sign key2 = true ->
  Js.includes Js.newline value1 = false ->
  Js.includes Js.newline value2 = false ->
  appended_text (snd (set_action_output key1 value1 host []))
  = appended_text (snd (set_action_output key2 value2 host [])) ->
  key1 = key2 /\ value1 = value2.
Proof.
  intros Hpath Hfs Hk1 Hk2 Hv1 Hv2.
  run_tool. rewrite Hpath, Hv1, Hv2, !Hfs.
  cbn [snd appended_text String.append]. intros Heq.
  injection Heq as Heq.
  destruct (@split_at_unique "="%char key1 key2 (value1 ++ Js.newline)
              (value2 ++ Js.newline) Hk1 Hk2 Heq) as [-> Hvalues].
  split; [reflexivity|].
  apply (@append_char_inj (ascii_of_nat 10)). exact Hvalues.
Qed.

(** The theorem at the key [pr_url]. *)
Lemma set_action_output_line_determines_entry_witness :
  let host := {| GITHUB_OUTPUT := Some "/tmp/out"; fs_appendFile := fun _ _ _ => None |} in
  appended_text (snd (set_action_output "pr_url" "https://x/1" host []))
  = ("claude_pr_url=https://x/1" ++ Js.newline)%string
  /\ ("pr_url" = "pr_url" /\ "https://x/1" = "https://x/1").
Proof.
  intros host.
  split; [reflexivity|].
  apply (@set_action_output_line_determines_entry host "/tmp/out"
           "pr_url" "https://x/1" "pr_url" "https://x/1" eq_refl);
    try reflexivity.
  intros h path content. reflexivity.
Defined.

End StructuredOutputsServer.
